(** * TWSE chip-data service: fetch with retry, row parsers, ranking, lookup

    A shallow embedding of [app/services/twse.py] (class [TWSEService]) and
    the properties of its retry loop, its two row parsers, the top-10
    rankings and the stock lookup.

    Conventions of the embedding.
    - A Python [str] is the list of its Unicode code points ([pystr]).
      Literals are written as UTF-8 text and decoded by [py].
    - A decoded JSON document is a value of [json]; a Python [int] is a [Z].
    - A Python expression that may raise returns [py_res A = exn + A]; the
      [try]/[except] clauses of the source are matches on the exception.
    - Delays ([float] seconds in the source) are exact rationals ([Q]):
      rounding and overflow of binary floating point are outside the model. *)

From Stdlib Require Import List ZArith NArith QArith Qminmax Lia Bool String Ascii.
From Stdlib Require Import Sorting.Sorted Sorting.Permutation.
Import ListNotations.

#[local] Open Scope Z_scope.

(** ** Python strings *)

Definition pystr := list N.

(** UTF-8 decoding of a literal written in this file. [need] counts the
    continuation bytes still expected and [acc] holds the bits read so far. *)
Fixpoint utf8_go (bs : list N) (acc : N) (need : nat) : pystr :=
  match bs with
  | [] => []
  | b :: t =>
      match need with
      | O =>
          if (b <? 128)%N then b :: utf8_go t 0%N O
          else if (b <? 224)%N then utf8_go t (N.land b 31) 1%nat
          else if (b <? 240)%N then utf8_go t (N.land b 15) 2%nat
          else utf8_go t (N.land b 7) 3%nat
      | S O => (acc * 64 + N.land b 63)%N :: utf8_go t 0%N O
      | S k => utf8_go t (acc * 64 + N.land b 63)%N k
      end
  end.

Definition py (s : string) : pystr :=
  utf8_go (map N_of_ascii (list_ascii_of_string s)) 0%N O.

Arguments py s%_string.

Fixpoint str_eqb (a b : pystr) : bool :=
  match a, b with
  | [], [] => true
  | x :: a', y :: b' => (x =? y)%N && str_eqb a' b'
  | _, _ => false
  end.

(** [a.startswith(b)] read the other way round: [b] is a prefix of [a]. *)
Fixpoint str_prefix (b a : pystr) : bool :=
  match b, a with
  | [], _ => true
  | x :: b', y :: a' => (x =? y)%N && str_prefix b' a'
  | _ :: _, [] => false
  end.

(** [sub in s] on two strings. *)
Fixpoint str_contains (sub s : pystr) : bool :=
  str_prefix sub s ||
  match s with
  | [] => false
  | _ :: t => str_contains sub t
  end.

(** [str.isspace] on one code point: the characters [str.strip()] removes. *)
Definition isspace (c : N) : bool :=
  ((9 <=? c) && (c <=? 13) || (28 <=? c) && (c <=? 32) ||
   (c =? 133) || (c =? 160) || (c =? 5760) ||
   (8192 <=? c) && (c <=? 8202) || (c =? 8232) || (c =? 8233) ||
   (c =? 8239) || (c =? 8287) || (c =? 12288))%N.

Fixpoint lstrip (sp : N -> bool) (s : pystr) : pystr :=
  match s with
  | [] => []
  | c :: t => if sp c then lstrip sp t else s
  end.

Definition strip_with (sp : N -> bool) (s : pystr) : pystr :=
  rev (lstrip sp (rev (lstrip sp s))).

(** [s.strip()] *)
Definition strip (s : pystr) : pystr := strip_with isspace s.

(** [s.replace(",", "")] *)
Definition replace_commas (s : pystr) : pystr :=
  filter (fun c => negb (c =? 44)%N) s.

(** ** Exceptions and the error monad *)

Inductive exn : Type :=
| ValueError
| IndexError
| AttributeError
| TypeError
| KeyError.

Definition py_res (A : Type) : Type := (exn + A)%type.

Definition ret {A : Type} (a : A) : py_res A := inr a.
Definition raise {A : Type} (e : exn) : py_res A := inl e.

Definition bind {A B : Type} (c : py_res A) (k : A -> py_res B) : py_res B :=
  match c with
  | inl e => inl e
  | inr a => k a
  end.

Notation "x <- c ;; k" := (bind c (fun x => k))
  (at level 61, c at next level, right associativity).

(** ** [int(s)] on a string

    CPython first maps every non-ASCII white-space character to a blank and
    every non-ASCII decimal digit to its ASCII digit, then skips ASCII
    white space (tab to carriage return, and blank) on both sides, reads an
    optional sign and a non-empty run of decimal digits in which single
    underscores may separate digits.  The decimal digits are those of
    Unicode 14, the table of CPython 3.11: they come in runs of ten, and
    [decimal_zeros] lists the zero of each run.  The limit that recent
    CPython versions put on the number of digits is not modelled (beyond
    it [int] raises [ValueError], as for any other string it rejects). *)

Definition int_space (c : N) : bool :=
  ((9 <=? c) && (c <=? 13) || (c =? 32) || (127 <=? c) && isspace c)%N.

Definition decimal_zeros : list N :=
  [48; 1632; 1776; 1984; 2406; 2534; 2662; 2790; 2918; 3046; 3174; 3302;
   3430; 3558; 3664; 3792; 3872; 4160; 4240; 6112; 6160; 6470; 6608; 6784;
   6800; 6992; 7088; 7232; 7248; 42528; 43216; 43264; 43472; 43504; 43600;
   44016; 65296; 66720; 68912; 69734; 69872; 69942; 70096; 70384; 70736;
   70864; 71248; 71360; 71472; 71904; 72016; 72784; 73040; 73120; 92768;
   92864; 93008; 120782; 120792; 120802; 120812; 120822; 123200; 123632;
   125264; 130032]%N.

(** The value of a decimal digit, [None] for any other character. *)
Definition decimal (c : N) : option Z :=
  match find (fun z => (z <=? c) && (c <? z + 10))%N decimal_zeros with
  | Some z => Some (Z.of_N (c - z))
  | None => None
  end.

Fixpoint digits_go (s : pystr) (acc : Z) (prev_us : bool) : option Z :=
  match s with
  | [] => if prev_us then None else Some acc
  | c :: t =>
      match decimal c with
      | Some d => digits_go t (10 * acc + d) false
      | None =>
          if (c =? 95)%N then
            if prev_us then None else digits_go t acc true
          else None
      end
  end.

Definition parse_digits (s : pystr) : option Z :=
  match s with
  | [] => None
  | c :: _ => if (c =? 95)%N then None else digits_go s 0 false
  end.

Definition py_int (s : pystr) : py_res Z :=
  let body := strip_with int_space s in
  let r :=
    match body with
    | 43%N :: t => parse_digits t
    | 45%N :: t => option_map Z.opp (parse_digits t)
    | _ => parse_digits body
    end in
  match r with
  | Some z => ret z
  | None => raise ValueError
  end.

(** ** Decoded JSON values *)

#[local] Set Warnings "-register-all".

Inductive json : Type :=
| JNull
| JBool (b : bool)
| JInt (n : Z)
| JFloat (q : Q)
| JStr (s : pystr)
| JArr (l : list json)
| JObj (o : list (pystr * json)).

Definition dict := list (pystr * json).

(** [d.get(k)]: [None] of Python is [JNull], a missing key is Rocq's [None]. *)
Fixpoint dict_lookup (d : dict) (k : pystr) : option json :=
  match d with
  | [] => None
  | (k', v) :: t => if str_eqb k' k then Some v else dict_lookup t k
  end.

(** [d.get(k, default)] *)
Definition dict_get (d : dict) (k : pystr) (default : json) : json :=
  match dict_lookup d k with
  | Some v => v
  | None => default
  end.

(** [len(x)] *)
Definition py_len (x : json) : py_res Z :=
  match x with
  | JStr s => ret (Z.of_nat (List.length s))
  | JArr l => ret (Z.of_nat (List.length l))
  | JObj o => ret (Z.of_nat (List.length o))
  | _ => raise TypeError
  end.

(** [x[i]] for a literal index [i >= 0].  A dict decoded from JSON has
    string keys only, so an integer subscript is always a [KeyError]. *)
Definition py_getitem (x : json) (i : nat) : py_res json :=
  match x with
  | JStr s =>
      match nth_error s i with
      | Some c => ret (JStr [c])
      | None => raise IndexError
      end
  | JArr l =>
      match nth_error l i with
      | Some v => ret v
      | None => raise IndexError
      end
  | JObj _ => raise KeyError
  | _ => raise TypeError
  end.

(** [for row in x]: the sequence of values the loop visits. *)
Definition py_iter (x : json) : py_res (list json) :=
  match x with
  | JStr s => ret (map (fun c => JStr [c]) s)
  | JArr l => ret l
  | JObj o => ret (map (fun kv => JStr (fst kv)) o)
  | _ => raise TypeError
  end.

(** Truth value of [x] in a condition. *)
Definition truthy (x : json) : bool :=
  match x with
  | JNull => false
  | JBool b => b
  | JInt n => negb (n =? 0)
  | JFloat q => negb (Qnum q =? 0)
  | JStr s => match s with [] => false | _ => true end
  | JArr l => match l with [] => false | _ => true end
  | JObj o => match o with [] => false | _ => true end
  end.

(** [x.strip()]: only strings have the method. *)
Definition py_strip (x : json) : py_res pystr :=
  match x with
  | JStr s => ret (strip s)
  | _ => raise AttributeError
  end.

(** [int(x.replace(",", ""))] *)
Definition cell_int (x : json) : py_res Z :=
  match x with
  | JStr s => py_int (replace_commas s)
  | _ => raise AttributeError
  end.

(** [f(row[i])]: the cell is read, then used. *)
Definition item {A : Type} (row : json) (i : nat) (f : json -> py_res A)
  : py_res A :=
  c <- py_getitem row i ;; f c.

(** [x == s] for a string literal [s]. *)
Definition eq_str (x : json) (s : pystr) : bool :=
  match x with
  | JStr t => str_eqb t s
  | _ => false
  end.

(** ** Records of the parsed results *)

Module Investor.
Record t : Type := mk {
  name : pystr;
  buy : Z;
  sell : Z;
  diff : Z
}.
End Investor.

Module Summary.
Record t : Type := mk {
  date : pystr;
  title : json;
  investors : list Investor.t;
  total_diff : Z
}.
End Summary.

Module Stock.
Record t : Type := mk {
  code : pystr;
  name : pystr;
  foreign_buy : Z;
  foreign_sell : Z;
  foreign_diff : Z;
  trust_buy : Z;
  trust_sell : Z;
  trust_diff : Z;
  dealer_diff : Z;
  total_diff : Z
}.
End Stock.

Module StockList.
Record t : Type := mk {
  date : pystr;
  stocks : list Stock.t;
  top_foreign_buy : list Stock.t;
  top_foreign_sell : list Stock.t;
  top_trust_buy : list Stock.t;
  top_trust_sell : list Stock.t
}.
End StockList.

(** ** [parse_chip_summary] *)

Definition default_title : json := JStr (py "三大法人買賣金額統計表").

Definition marker : pystr := py "合計".

(** The [try] block of one row: the three amounts. *)
Definition summary_amounts (row : json) : py_res (Z * Z * Z) :=
  buy <- item row 1 cell_int ;;
  sell <- item row 2 cell_int ;;
  diff <- item row 3 cell_int ;;
  ret (buy, sell, diff).

(** One iteration of the loop over the rows.  The state is the pair of
    [result["investors"]] and [result["total_diff"]].  The name is trimmed
    before the [try]; the handler catches [ValueError] and [AttributeError]. *)
Definition summary_row (row : json) (st : list Investor.t * Z)
  : py_res (list Investor.t * Z) :=
  n <- py_len row ;;
  if 4 <=? n then
    name <- item row 0 py_strip ;;
    match summary_amounts row with
    | inr (buy, sell, diff) =>
        ret (fst st ++ [Investor.mk name buy sell diff],
             if str_contains marker name then diff else snd st)
    | inl ValueError | inl AttributeError => ret st
    | inl e => raise e
    end
  else ret st.

Fixpoint summary_rows (rows : list json) (st : list Investor.t * Z)
  : py_res (list Investor.t * Z) :=
  match rows with
  | [] => ret st
  | row :: rest => st' <- summary_row row st ;; summary_rows rest st'
  end.

Definition parse_chip_summary (data : dict) (date_str : pystr)
  : py_res Summary.t :=
  let title := dict_get data (py "title") default_title in
  let raw_data := dict_get data (py "data") (JArr []) in
  rows <- py_iter raw_data ;;
  st <- summary_rows rows ([], 0) ;;
  ret (Summary.mk date_str title (fst st) (snd st)).

(** ** [parse_stock_chip_data] *)

(** [int(c.replace(",", "")) if c else 0] *)
Definition optional_int (c : json) : py_res Z :=
  if truthy c then cell_int c else ret 0.

(** The [try] block of one row, in the order the source evaluates it. *)
Definition stock_of_row (row : json) (n : Z) : py_res Stock.t :=
  code <- item row 0 py_strip ;;
  name <- item row 1 py_strip ;;
  foreign_diff <- item row 4 cell_int ;;
  trust_diff <- item row 10 cell_int ;;
  d1 <- item row 11 cell_int ;;
  d2 <- item row 14 cell_int ;;
  let dealer_diff := d1 + d2 in
  total_diff <-
    (if 17 <? n then item row 17 cell_int
     else ret (foreign_diff + trust_diff + dealer_diff)) ;;
  foreign_buy <- item row 2 optional_int ;;
  foreign_sell <- item row 3 optional_int ;;
  trust_buy <- item row 8 optional_int ;;
  trust_sell <- item row 9 optional_int ;;
  ret (Stock.mk code name foreign_buy foreign_sell foreign_diff
         trust_buy trust_sell trust_diff dealer_diff total_diff).

(** One iteration of the loop: [Some s] when [s] is appended to [stocks],
    [None] when the row is passed over (too short, or an exception of the
    handler's three classes), an exception when it escapes. *)
Definition parse_stock_row (row : json) : py_res (option Stock.t) :=
  n <- py_len row ;;
  if 17 <=? n then
    match stock_of_row row n with
    | inr s => ret (Some s)
    | inl ValueError | inl IndexError | inl AttributeError => ret None
    | inl e => raise e
    end
  else ret None.

Fixpoint parse_stock_rows (rows : list json) (stocks : list Stock.t)
  : py_res (list Stock.t) :=
  match rows with
  | [] => ret stocks
  | row :: rest =>
      o <- parse_stock_row row ;;
      parse_stock_rows rest
        (match o with Some s => stocks ++ [s] | None => stocks end)
  end.

(** [sorted(l, key=key)]: the sort is stable, and a stable sort has one
    possible result, computed here by insertion.  [x] precedes every element
    of [l] in the input, so it goes in front of the elements of equal key. *)
Fixpoint insert_by {A : Type} (key : A -> Z) (x : A) (l : list A) : list A :=
  match l with
  | [] => [x]
  | y :: t => if key x <=? key y then x :: l else y :: insert_by key x t
  end.

Fixpoint sort_by {A : Type} (key : A -> Z) (l : list A) : list A :=
  match l with
  | [] => []
  | x :: t => insert_by key x (sort_by key t)
  end.

(** [sorted(l, key=key, reverse=reverse)].  With [reverse=True] CPython
    reverses the list, sorts it and reverses the result, which keeps the
    elements of equal key in their input order. *)
Definition sorted {A : Type} (key : A -> Z) (reverse : bool) (l : list A)
  : list A :=
  if reverse then rev (sort_by key (rev l)) else sort_by key l.

Definition parse_stock_chip_data (data : dict) (date_str : pystr)
  : py_res StockList.t :=
  let raw_data := dict_get data (py "data") (JArr []) in
  rows <- py_iter raw_data ;;
  stocks <- parse_stock_rows rows [] ;;
  ret (StockList.mk date_str stocks
         (firstn 10 (sorted Stock.foreign_diff true stocks))
         (firstn 10 (sorted Stock.foreign_diff false stocks))
         (firstn 10 (sorted Stock.trust_diff true stocks))
         (firstn 10 (sorted Stock.trust_diff false stocks))).

(** ** [get_stock_detail] *)

Fixpoint find_code (stocks : list Stock.t) (stock_code : pystr)
  : option Stock.t :=
  match stocks with
  | [] => None
  | stock :: rest =>
      if str_eqb (Stock.code stock) stock_code then Some stock
      else find_code rest stock_code
  end.

Definition get_stock_detail (stocks_data : StockList.t) (stock_code : pystr)
  : option Stock.t :=
  find_code (StockList.stocks stocks_data) stock_code.

(** ** [_fetch_json] *)

(** The text of a [TWSEAPIError], kept structured: each constructor stands
    for one format string of the source. *)
Inductive cause : Type :=
| Builtin (e : exn)
| Other (detail : pystr).

Inductive message : Type :=
| Request_timeout (url : pystr)
| HTTP_error (status : Z)
| Request_error (detail : pystr)
| API_returned_error_status (stat : json)
| Unknown_error (c : cause)
| Request_failed.

Record TWSEAPIError : Type := mkError {
  error_message : message;
  status_code : option Z
}.

(** What one [GET] produces inside the [async with] block, up to and
    including [response.json()].  The per-attempt [timeout] of the source
    only decides when the first case occurs. *)
Inductive response : Type :=
| TimeoutException
| HTTPStatusError (status : Z)
| RequestError (detail : pystr)
| OtherException (detail : pystr)
| Json (data : json).

(** ["stat" in data] *)
Definition contains_stat (data : json) : py_res bool :=
  match data with
  | JObj o => ret (match dict_lookup o (py "stat") with
                   | Some _ => true
                   | None => false
                   end)
  | JArr l => ret (existsb (fun v => eq_str v (py "stat")) l)
  | JStr s => ret (str_contains (py "stat") s)
  | _ => raise TypeError
  end.

(** [data.get("stat")] *)
Definition get_stat (data : json) : py_res json :=
  match data with
  | JObj o => ret (dict_get o (py "stat") JNull)
  | _ => raise AttributeError
  end.

(** The check of the decoded body: [Some stat] when the source raises the
    validation error, [None] when the body passes. *)
Definition validate (data : json) : py_res (option json) :=
  b <- contains_stat data ;;
  if b then
    stat <- get_stat data ;;
    ret (if negb (eq_str stat (py "OK")) then Some stat else None)
  else ret None.

(** How one pass through the [try] statement ends. *)
Inductive attempt_result : Type :=
| Returned (data : json)
| Propagated (e : TWSEAPIError)
| Recorded (e : TWSEAPIError).

(** The [try] statement with its four handlers.  A [TWSEAPIError] raised by
    the validation reaches the last handler, which raises it again; every
    other exception is stored in [last_exception]. *)
Definition attempt (url : pystr) (r : response) : attempt_result :=
  match r with
  | TimeoutException => Recorded (mkError (Request_timeout url) None)
  | HTTPStatusError c => Recorded (mkError (HTTP_error c) (Some c))
  | RequestError d => Recorded (mkError (Request_error d) None)
  | OtherException d => Recorded (mkError (Unknown_error (Other d)) None)
  | Json data =>
      match validate data with
      | inr None => Returned data
      | inr (Some stat) =>
          Propagated (mkError (API_returned_error_status stat) None)
      | inl e => Recorded (mkError (Unknown_error (Builtin e)) None)
      end
  end.


(** What the caller can observe of one call: the requests sent and the
    sleeps, in order. *)
Inductive event : Type :=
| Get (attempt : nat)
| Sleep (delay : Q).

(** [min(base_delay * (2 ** attempt), max_delay)] *)
Definition backoff (base_delay max_delay : Q) (attempt : nat) : Q :=
  Qmin (base_delay * inject_Z (2 ^ Z.of_nat attempt)) max_delay.

Section Fetch.
(** [net i] is what the [i]-th request of the call meets. *)
Variable net : nat -> response.
Variable url : pystr.
Variable max_retries : Z.
Variables base_delay max_delay : Q.

(** The [for attempt in range(max_retries)] loop with [todo] iterations
    left, followed by the final [raise]. *)
Fixpoint retry_loop (todo attempt_no : nat) (last_exception : option TWSEAPIError)
  : list event * (TWSEAPIError + json) :=
  match todo with
  | O =>
      ([], inl (match last_exception with
                | Some e => e
                | None => mkError Request_failed None
                end))
  | S todo' =>
      match attempt url (net attempt_no) with
      | Returned data => ([Get attempt_no], inr data)
      | Propagated e => ([Get attempt_no], inl e)
      | Recorded e =>
          let sleep :=
            if Z.of_nat attempt_no <? max_retries - 1
            then [Sleep (backoff base_delay max_delay attempt_no)]
            else [] in
          let rest := retry_loop todo' (S attempt_no) (Some e) in
          (Get attempt_no :: sleep ++ fst rest, snd rest)
      end
  end.

Definition _fetch_json : list event * (TWSEAPIError + json) :=
  retry_loop (Z.to_nat max_retries) O None.
End Fetch.

(** ** Observations on a trace *)

(** The requests and sleeps of [k] recorded failures in a row, from
    attempt [a] on. *)
Definition failed_prefix (base_delay max_delay : Q) (a k : nat) : list event :=
  flat_map
    (fun i => [Get i; Sleep (Qmin (base_delay * inject_Z (2 ^ Z.of_nat i)) max_delay)])
    (seq a k).

(** The delays slept and the attempts made, read off a trace. *)
Definition sleeps (tr : list event) : list Q :=
  flat_map (fun ev => match ev with Sleep d => [d] | Get _ => [] end) tr.

Definition requests (tr : list event) : list nat :=
  flat_map (fun ev => match ev with Get i => [i] | Sleep _ => [] end) tr.

(** ** Notions the statements use *)

(** The [diff] of the last investor whose name contains the marker, 0
    when there is none. *)
Definition last_marked_diff (investors : list Investor.t) : Z :=
  last (map Investor.diff
          (filter (fun r => str_contains marker (Investor.name r)) investors))
       0.

(** The exceptions the handler of the stock parser catches. *)
Definition handled (e : exn) : bool :=
  match e with
  | ValueError | IndexError | AttributeError => true
  | TypeError | KeyError => false
  end.

(** The records a row adds to [stocks]. *)
Definition records_of_row (row : json) : list Stock.t :=
  match parse_stock_row row with
  | inr (Some s) => [s]
  | _ => []
  end.

(** The rows of cells the statements name as passed over: too short, a
    required number that does not decode, a cell on which the source calls
    a string method and that is no string, an optional number that is
    present and does not decode. *)
Inductive passed_over (cells : list json) : Prop :=
| too_short :
    (List.length cells < 17)%nat -> passed_over cells
| undecodable (i : nat) (s : pystr) :
    In i [4; 10; 11; 14; 17]%nat ->
    nth_error cells i = Some (JStr s) ->
    py_int (replace_commas s) = inl ValueError ->
    passed_over cells
| not_a_string (i : nat) (c : json) :
    In i [0; 1; 4; 10; 11; 14; 17]%nat ->
    nth_error cells i = Some c ->
    (forall s, c <> JStr s) ->
    passed_over cells
| optional_undecodable (i : nat) (c : json) (e : exn) :
    In i [2; 3; 8; 9]%nat ->
    nth_error cells i = Some c ->
    truthy c = true ->
    cell_int c = inl e ->
    passed_over cells.

(** [top] is a ranking of [stocks] by [key] in the order [ord]: at most ten
    records, all of [stocks], sorted, and for each value of the key the
    records of [top] with that value are the first ones of [stocks] with
    it, in the order of [stocks]. *)
Definition ranking (key : Stock.t -> Z) (ord : Z -> Z -> Prop)
  (stocks top : list Stock.t) : Prop :=
  (List.length top <= 10)%nat /\
  (forall s, In s top -> In s stocks) /\
  StronglySorted (fun a b => ord (key a) (key b)) top /\
  (forall k, exists rest,
      filter (fun s => key s =? k) stocks =
      filter (fun s => key s =? k) top ++ rest).

(** ** Sample inputs *)

Definition sample_url : pystr :=
  py "https://www.twse.com.tw/rwd/zh/fund/BFI82U?response=json&date=20240102".

Definition ok_body : json :=
  JObj [(py "stat", JStr (py "OK")); (py "data", JArr [])].

(** The body the exchange sends for a day without trading. *)
Definition no_data_body : json :=
  JObj [(py "stat", JStr (py "很抱歉，沒有符合條件的資料!"))].

(** Two transient failures, then a valid body. *)
Definition net_two_failures (i : nat) : response :=
  match i with
  | O => TimeoutException
  | S O => HTTPStatusError 503
  | _ => Json ok_body
  end.




Definition sample_date : pystr := py "20240102".

(** A summary table whose first row has a number where the name is due. *)
Definition summary_doc_name_not_str : dict :=
  [(py "stat", JStr (py "OK"));
   (py "data",
    JArr [JArr [JInt 123; JStr (py "1"); JStr (py "2"); JStr (py "3")]])].

Definition summary_doc : dict :=
  [(py "title", JStr (py "113年01月02日 三大法人買賣金額統計表"));
   (py "data",
    JArr [JArr [JStr (py "自營商(自行買賣)"); JStr (py "1,000");
                JStr (py "2,000"); JStr (py "-1,000")];
          JArr [JStr (py "投信"); JStr (py "n/a"); JStr (py "0");
                JStr (py "0")];
          JArr [JStr (py "  外資合計  "); JStr (py "9,000");
                JStr (py "4,000"); JStr (py "5,000")];
          JArr [JStr (py "short"); JStr (py "1")]])].

(** The result [parse_chip_summary] yields on [summary_doc]. *)
Definition summary_result : Summary.t :=
  Summary.mk sample_date
    (JStr (py "113年01月02日 三大法人買賣金額統計表"))
    [Investor.mk (py "自營商(自行買賣)") 1000 2000 (-1000);
     Investor.mk (py "外資合計") 9000 4000 5000]
    5000.

(** A stock row of 17 cells; only the cells the parser reads are filled. *)
Definition stock_row (code name fdiff tdiff : string) : list json :=
  [JStr (py code); JStr (py name); JStr (py "1,000"); JStr (py "");
   JStr (py fdiff); JStr (py ""); JStr (py ""); JStr (py "");
   JStr (py "0"); JStr (py "7"); JStr (py tdiff); JStr (py "10");
   JStr (py ""); JStr (py ""); JStr (py "-4"); JStr (py "");
   JStr (py "")].

Definition stock_rows : list json :=
  [JArr (stock_row " 2330 " "台積電" "5,000" "-20");
   JArr (stock_row "2317" "鴻海" "-300" "40" ++ [JStr (py "1,234")]);
   JArr (stock_row "2454" "聯發科" "5,000" "40");
   JArr (stock_row "1101" "台泥" "12" "x");
   JArr (stock_row "2002" "中鋼" "1" "1" ++ [JStr (py "")]);
   JArr [JStr (py "2603"); JStr (py "長榮")]].

Definition stock_doc : dict :=
  [(py "stat", JStr (py "OK")); (py "data", JArr stock_rows)].

(** The records and the result [parse_stock_chip_data] yields on
    [stock_doc]. *)
Definition hon_hai : Stock.t :=
  Stock.mk (py "2317") (py "鴻海") 1000 0 (-300) 0 7 40 6 1234.

Definition stock_records : list Stock.t :=
  [Stock.mk (py "2330") (py "台積電") 1000 0 5000 0 7 (-20) 6 4986;
   hon_hai;
   Stock.mk (py "2454") (py "聯發科") 1000 0 5000 0 7 40 6 5046].

Definition stock_list : StockList.t :=
  StockList.mk sample_date stock_records
    (firstn 10 (sorted Stock.foreign_diff true stock_records))
    (firstn 10 (sorted Stock.foreign_diff false stock_records))
    (firstn 10 (sorted Stock.trust_diff true stock_records))
    (firstn 10 (sorted Stock.trust_diff false stock_records)).

(** The same table without its fifth row, the one with an empty cell 17. *)
Definition stock_doc_without_bad_total : dict :=
  [(py "data",
    JArr [JArr (stock_row " 2330 " "台積電" "5,000" "-20");
          JArr (stock_row "2317" "鴻海" "-300" "40" ++ [JStr (py "1,234")]);
          JArr (stock_row "2454" "聯發科" "5,000" "40");
          JArr (stock_row "1101" "台泥" "12" "x");
          JArr [JStr (py "2603"); JStr (py "長榮")]])].

(** A stock table whose only row has a number in the place of the code. *)
Definition stock_doc_code_not_str : dict :=
  [(py "data",
    JArr [JArr (JInt 2330 :: tl (stock_row "" "台積電" "5,000" "-20"))])].

(** ** The service's fetch functions *)

Definition DEFAULT_MAX_RETRIES : Z := 3.
Definition DEFAULT_BASE_DELAY : Q := 1.
Definition DEFAULT_MAX_DELAY : Q := 10.

(** [self.base_url] *)
Definition base_url : pystr := py "https://www.twse.com.tw".

(** How the call ends when the attempt is the last one it makes. *)
Definition outcome (a : attempt_result) : TWSEAPIError + json :=
  match a with
  | Returned data => inr data
  | Propagated e | Recorded e => inl e
  end.

Section Service.
(** [web url i] is what the [i]-th request of a call for [url] meets;
    [today] is what [_get_today_date()] reads off the clock. *)
Variable web : pystr -> nat -> response.
Variable today : pystr.

Definition summary_url (date_str : pystr) : pystr :=
  base_url ++ py "/rwd/zh/fund/BFI82U?response=json&date=" ++ date_str.

Definition stock_url (date_str : pystr) : pystr :=
  base_url ++ py "/rwd/zh/fund/T86?response=json&date=" ++ date_str
           ++ py "&selectType=ALLBUT0999".

Definition fetch_chip_summary (date_str : option pystr)
  : list event * (TWSEAPIError + json) :=
  let date_str := match date_str with Some d => d | None => today end in
  let url := summary_url date_str in
  _fetch_json (web url) url
    DEFAULT_MAX_RETRIES DEFAULT_BASE_DELAY DEFAULT_MAX_DELAY.

Definition fetch_stock_chip_data (date_str : option pystr)
  : list event * (TWSEAPIError + json) :=
  let date_str := match date_str with Some d => d | None => today end in
  let url := stock_url date_str in
  _fetch_json (web url) url
    DEFAULT_MAX_RETRIES DEFAULT_BASE_DELAY DEFAULT_MAX_DELAY.
End Service.

(** ** Rows the parsers can take *)

(** A row seen as a list of cells: a list is one, a string is the list of
    its one-character strings. *)
Definition cells_of (row : json) : option (list json) :=
  match row with
  | JArr cells => Some cells
  | JStr s => Some (map (fun c => JStr [c]) s)
  | _ => None
  end.

Definition is_str (c : json) : bool :=
  match c with
  | JStr _ => true
  | _ => false
  end.

(** The rows on which the loop of [parse_chip_summary] does not raise: a
    string, a list that is short or begins with a string, a dict of fewer
    than four keys. *)
Definition summary_row_safe (row : json) : bool :=
  match row with
  | JStr _ => true
  | JArr cells =>
      (List.length cells <? 4)%nat ||
      match nth_error cells 0 with
      | Some c => is_str c
      | None => false
      end
  | JObj o => (List.length o <? 4)%nat
  | _ => false
  end.

(** The rows on which the loop of [parse_stock_chip_data] does not raise:
    a string, a list, a dict of fewer than 17 keys. *)
Definition stock_row_safe (row : json) : bool :=
  match row with
  | JStr _ | JArr _ => true
  | JObj o => (List.length o <? 17)%nat
  | _ => false
  end.

(** [top] holds the extremes of [stocks] by [key] in the order [ord]: it
    is [stocks] without some records [rest], none of which comes before a
    record of [top] in the order, and it has ten records or, when [stocks]
    is shorter, all of them. *)
Definition extremes (key : Stock.t -> Z) (ord : Z -> Z -> Prop)
  (stocks top : list Stock.t) : Prop :=
  exists rest,
    Permutation stocks (top ++ rest) /\
    (forall x y, In x top -> In y rest -> ord (key x) (key y)) /\
    List.length top = Nat.min 10 (List.length stocks).

(** A row of 17 cells with its optional cells 3 and 8 empty or zero, and
    the record it yields. *)
Definition tsmc_row : list json := stock_row "2330" "台積電" "5,000" "-20".

Definition tsmc : Stock.t :=
  Stock.mk (py "2330") (py "台積電") 1000 0 5000 0 7 (-20) 6 4986.

(** A document without a ["data"] key. *)
Definition doc_without_data : dict :=
  [(py "stat", JStr (py "OK")); (py "title", JStr (py "T86"))].

(** ** The router ([app/routers/chip.py]) *)

(** The [detail] of an [HTTPException], kept structured like [message]:
    each constructor stands for one expression of the source. *)
Inductive detail : Type :=
| No_data_available (date : pystr)
| Message_text (m : message)
| Exception_text (e : exn)
| Stock_not_found (code date : pystr).

Module HTTPException.
Record t : Type := mk {
  status_code : Z;
  detail : detail
}.
End HTTPException.

(** [{**stock_detail, "date": date}] *)
Module StockDetail.
Record t : Type := mk {
  stock : Stock.t;
  date : pystr
}.
End StockDetail.

(** The parsers call [data.get] first: only a dict has the method. *)
Definition as_dict (x : json) : py_res dict :=
  match x with
  | JObj o => ret o
  | _ => raise AttributeError
  end.

Section Router.
(** [web] and [today] as for the service ([today] is what
    [get_default_date()] reads off the clock).  The texts CPython produces
    for an integer, for a decoded JSON value and for a builtin exception
    are parameters. *)
Variable web : pystr -> nat -> response.
Variable today : pystr.
Variable str_int : Z -> pystr.
Variable str_json : json -> pystr.
Variable str_exn : exn -> pystr.

(** [e.message], as the format strings of the service build it. *)
Definition message_text (m : message) : pystr :=
  match m with
  | Request_timeout url => py "Request timeout: " ++ url
  | HTTP_error status => py "HTTP error: " ++ str_int status
  | Request_error d => py "Request error: " ++ d
  | API_returned_error_status stat =>
      py "API returned error status: " ++ str_json stat
  | Unknown_error (Builtin e) => py "Unknown error: " ++ str_exn e
  | Unknown_error (Other d) => py "Unknown error: " ++ d
  | Request_failed => py "Request failed"
  end.

(** ["沒有符合條件的資料" in str(e.message) or e.status_code == 404] *)
Definition no_data (e : TWSEAPIError) : bool :=
  str_contains (py "沒有符合條件的資料") (message_text (error_message e)) ||
  match status_code e with
  | Some c => c =? 404
  | None => false
  end.

Definition get_chip_summary (date : option pystr)
  : list event * (HTTPException.t + Summary.t) :=
  let date := match date with Some d => d | None => today end in
  let run := fetch_chip_summary web today (Some date) in
  (fst run,
   match snd run with
   | inr raw_data =>
       match (data <- as_dict raw_data ;; parse_chip_summary data date) with
       | inr result => inr result
       | inl e => inl (HTTPException.mk 500 (Exception_text e))
       end
   | inl e =>
       if no_data e
       then inl (HTTPException.mk 404 (No_data_available date))
       else inl (HTTPException.mk 500 (Message_text (error_message e)))
   end).

Definition get_stock_chip_list (date : option pystr)
  : list event * (HTTPException.t + StockList.t) :=
  let date := match date with Some d => d | None => today end in
  let run := fetch_stock_chip_data web today (Some date) in
  (fst run,
   match snd run with
   | inr raw_data =>
       match (data <- as_dict raw_data ;; parse_stock_chip_data data date) with
       | inr result => inr result
       | inl e => inl (HTTPException.mk 500 (Exception_text e))
       end
   | inl e =>
       if no_data e
       then inl (HTTPException.mk 404 (No_data_available date))
       else inl (HTTPException.mk 500 (Message_text (error_message e)))
   end).

Definition get_stock_chip_detail (code : pystr) (date : option pystr)
  : list event * (HTTPException.t + StockDetail.t) :=
  let date := match date with Some d => d | None => today end in
  let run := fetch_stock_chip_data web today (Some date) in
  (fst run,
   match snd run with
   | inr raw_data =>
       match (data <- as_dict raw_data ;; parse_stock_chip_data data date) with
       | inr parsed_data =>
           match get_stock_detail parsed_data code with
           | None => inl (HTTPException.mk 404 (Stock_not_found code date))
           | Some stock_detail => inr (StockDetail.mk stock_detail date)
           end
       | inl e => inl (HTTPException.mk 500 (Exception_text e))
       end
   | inl e => inl (HTTPException.mk 500 (Message_text (error_message e)))
   end).
End Router.

(** ** Sample inputs for the router *)

(** The site answers every request with the no-data body. *)
Definition web_no_data (url : pystr) (i : nat) : response := Json no_data_body.

(** The site times out twice and then answers 404. *)
Definition web_404 (url : pystr) (i : nat) : response :=
  match i with
  | O | S O => TimeoutException
  | _ => HTTPStatusError 404
  end.

(** The site answers with the stock table [stock_doc]. *)
Definition web_stocks (url : pystr) (i : nat) : response :=
  Json (JObj stock_doc).

(** Stand-ins for the three texts, exact on strings. *)
Definition sample_str_json (v : json) : pystr :=
  match v with
  | JStr s => s
  | _ => py "?"
  end.

Definition sample_str_int (z : Z) : pystr := py "?".
Definition sample_str_exn (e : exn) : pystr := py "?".

(** * Properties *)

(** ** The fetch loop *)

Section FetchFacts.
Variable net : nat -> response.
Variable url : pystr.
Variable max_retries : Z.
Variables base_delay max_delay : Q.

Let loop := retry_loop net url max_retries base_delay max_delay.

(** While the attempts are recorded failures below the last index, the
    loop sends the request, sleeps and goes on. *)
Lemma retry_loop_recorded :
  forall k todo a last,
    (forall j, (a <= j < a + k)%nat ->
               exists e, attempt url (net j) = Recorded e) ->
    Z.of_nat (a + k) <= max_retries - 1 ->
    exists last',
      loop (k + todo)%nat a last =
        (failed_prefix base_delay max_delay a k ++ fst (loop todo (a + k)%nat last'),
         snd (loop todo (a + k)%nat last')).
Proof.
  induction k as [|k IH]; intros todo a last Hrec Hle.
  - exists last. rewrite Nat.add_0_r. simpl.
    destruct (loop todo a last); reflexivity.
  - destruct (Hrec a) as [e He]; [lia|].
    destruct (IH todo (S a) (Some e)) as [last' Hl].
    + intros j Hj. apply Hrec. lia.
    + lia.
    + exists last'. change (S k + todo)%nat with (S (k + todo)).
      unfold loop in *. simpl retry_loop. rewrite He.
      fold (retry_loop net url max_retries base_delay max_delay).
      rewrite Hl.
      replace (Z.of_nat a <? max_retries - 1) with true
        by (symmetry; apply Z.ltb_lt; lia).
      replace (a + S k)%nat with (S a + k)%nat by lia.
      unfold failed_prefix, backoff. simpl. reflexivity.
Qed.
End FetchFacts.

Lemma sleeps_app (t1 t2 : list event) : sleeps (t1 ++ t2) = sleeps t1 ++ sleeps t2.
Proof. unfold sleeps. apply flat_map_app. Qed.

Lemma requests_app (t1 t2 : list event) :
  requests (t1 ++ t2) = requests t1 ++ requests t2.
Proof. unfold requests. apply flat_map_app. Qed.

Lemma sleeps_failed_prefix (b m : Q) (k a : nat) :
  sleeps (failed_prefix b m a k) =
  map (fun i => Qmin (b * inject_Z (2 ^ Z.of_nat i)) m) (seq a k).
Proof.
  revert a. induction k as [|k IH]; intro a; [reflexivity|].
  unfold failed_prefix in *. simpl. f_equal. apply IH.
Qed.

Lemma requests_failed_prefix (b m : Q) (k a : nat) :
  requests (failed_prefix b m a k) = seq a k.
Proof.
  revert a. induction k as [|k IH]; intro a; [reflexivity|].
  unfold failed_prefix in *. simpl. f_equal. apply IH.
Qed.

(** A body with a ["stat"] field other than ["OK"] makes the attempt raise
    the validation error out of the loop. *)
Lemma attempt_stat_not_ok (url : pystr) (o : dict) (stat : json) :
  dict_lookup o (py "stat") = Some stat ->
  eq_str stat (py "OK") = false ->
  attempt url (Json (JObj o)) =
    Propagated (mkError (API_returned_error_status stat) None).
Proof.
  intros Hl Hne. unfold attempt, validate, contains_stat, get_stat, dict_get.
  rewrite Hl. simpl. rewrite Hne. reflexivity.
Qed.









(** ** Strings *)

Example py_marker : py "合計" = [21512%N; 35336%N].
Proof. vm_compute. reflexivity. Qed.

Example py_int_examples :
  py_int (replace_commas (py "1,000")) = inr 1000 /\
  py_int (py " -12_3 ") = inr (-123) /\
  py_int (py "") = inl ValueError /\
  py_int (py ",") = inl ValueError /\
  py_int (py "1__0") = inl ValueError /\
  py_int (py "- 1") = inl ValueError /\
  py_int (py "+_1") = inl ValueError /\
  py_int (py "007") = inr 7 /\
  py_int (py "　１２　") = inr 12.
Proof. repeat split; vm_compute; reflexivity. Qed.

Example strip_example : strip (py "  TEST  ") = py "TEST".
Proof. vm_compute. reflexivity. Qed.

Lemma str_eqb_eq (a b : pystr) : str_eqb a b = true <-> a = b.
Proof.
  revert b. induction a as [|x a IH]; intros [|y b]; simpl;
    try (split; [discriminate | discriminate]); [tauto|].
  rewrite andb_true_iff, N.eqb_eq, IH.
  split; [intros [-> ->]; reflexivity | intros [= -> ->]; auto].
Qed.

Lemma str_eqb_refl (a : pystr) : str_eqb a a = true.
Proof. apply str_eqb_eq. reflexivity. Qed.

Lemma str_eqb_neq (a b : pystr) : str_eqb a b = false <-> a <> b.
Proof.
  rewrite <- str_eqb_eq. destruct (str_eqb a b); split; congruence.
Qed.

(** ** The summary parser *)

Lemma item_arr (A : Type) (cells : list json) (i : nat)
  (f : json -> py_res A) (c : json) :
  nth_error cells i = Some c -> item (JArr cells) i f = f c.
Proof. intro H. unfold item. simpl. rewrite H. reflexivity. Qed.

Lemma py_int_err (s : pystr) (e : exn) : py_int s = inl e -> e = ValueError.
Proof.
  unfold py_int.
  destruct (match strip_with int_space s with
            | [] => parse_digits (strip_with int_space s)
            | c :: t => _
            end); [discriminate|].
  intros [= <-]. reflexivity.
Qed.

(** C2.  On a table whose row has a number in the place of the name, the
    trimming of the name, which precedes the [try], raises
    [AttributeError] out of [parse_chip_summary]: the row is not passed
    over and no result is returned.  The stock parser, which trims inside
    its [try], passes the like row over and returns a result. *)
Theorem C2_name_cell_not_str_escapes :
  parse_chip_summary summary_doc_name_not_str sample_date = inl AttributeError /\
  (exists res,
      parse_stock_chip_data stock_doc_code_not_str sample_date = inr res /\
      StockList.stocks res = []).
Proof.
  split; [vm_compute; reflexivity|].
  eexists. split; vm_compute; reflexivity.
Qed.

Lemma last_marked_diff_snoc (l : list Investor.t) (r : Investor.t) :
  last_marked_diff (l ++ [r]) =
  if str_contains marker (Investor.name r) then Investor.diff r
  else last_marked_diff l.
Proof.
  unfold last_marked_diff. rewrite filter_app. simpl.
  destruct (str_contains marker (Investor.name r)).
  - rewrite map_app. simpl. apply last_last.
  - rewrite app_nil_r. reflexivity.
Qed.

(** One iteration keeps [total_diff] equal to the [diff] of the last
    marked investor. *)
Lemma summary_row_keeps (row : json) (st st' : list Investor.t * Z) :
  summary_row row st = inr st' ->
  snd st = last_marked_diff (fst st) ->
  snd st' = last_marked_diff (fst st').
Proof.
  unfold summary_row. intros H Hinv.
  destruct (py_len row) as [e|n]; simpl in H; [discriminate|].
  destruct (4 <=? n).
  - destruct (item row 0 py_strip) as [e|name]; simpl in H; [discriminate|].
    destruct (summary_amounts row) as [e|[[b s] d]].
    + destruct e; try discriminate; injection H as <-; exact Hinv.
    + injection H as <-. cbn [fst snd].
      rewrite last_marked_diff_snoc. cbn [Investor.name Investor.diff].
      destruct (str_contains marker name); [reflexivity | exact Hinv].
  - injection H as <-. exact Hinv.
Qed.

Lemma summary_rows_keep (rows : list json) :
  forall st st',
    summary_rows rows st = inr st' ->
    snd st = last_marked_diff (fst st) ->
    snd st' = last_marked_diff (fst st').
Proof.
  induction rows as [|row rows IH]; intros st st' H Hinv; simpl in H.
  - injection H as <-. exact Hinv.
  - destruct (summary_row row st) as [e|st1] eqn:Hrow; simpl in H;
      [discriminate|].
    apply (IH st1 st' H). exact (summary_row_keeps row st st1 Hrow Hinv).
Qed.

(** C8.  In a result of [parse_chip_summary], whose [investors] holds one
    record for each accepted row, in the order of the rows and with the
    trimmed name, [total_diff] is the [diff] of the last record whose name
    contains the marker, and 0 when no name contains it. *)
Theorem C8_total_diff_of_last_marked :
  forall (data : dict) (date_str : pystr) (r : Summary.t),
    parse_chip_summary data date_str = inr r ->
    Summary.total_diff r =
      last (map Investor.diff
              (filter (fun i => str_contains (py "合計") (Investor.name i))
                      (Summary.investors r)))
           0.
Proof.
  intros data date_str r H. unfold parse_chip_summary in H.
  destruct (py_iter (dict_get data (py "data") (JArr []))) as [e|rows];
    simpl in H; [discriminate|].
  destruct (summary_rows rows ([], 0)) as [e|st] eqn:Hrows; simpl in H;
    [discriminate|].
  injection H as <-. cbn [Summary.total_diff Summary.investors].
  exact (summary_rows_keep rows ([], 0) st Hrows eq_refl).
Qed.

Lemma C8_total_diff_of_last_marked_witness :
  Summary.total_diff summary_result =
  last (map Investor.diff
          (filter (fun i => str_contains (py "合計") (Investor.name i))
                  (Summary.investors summary_result)))
       0.
Proof.
  apply (C8_total_diff_of_last_marked summary_doc sample_date summary_result).
  vm_compute. reflexivity.
Defined.

Lemma cell_int_raises (c : json) (e : exn) :
  cell_int c = inl e -> e = ValueError \/ e = AttributeError.
Proof.
  destruct c; simpl; try (intros [= <-]; auto).
  intro H. left. exact (py_int_err _ _ H).
Qed.

(** Apart from the name, a row of cells cannot make the summary loop
    raise: when the rows with four cells or more begin with a string, the
    parser returns a result. *)
Lemma summary_rows_total (rows : list json) :
  (forall row, In row rows ->
     exists cells, row = JArr cells /\
       ((4 <= List.length cells)%nat -> exists s, nth_error cells 0 = Some (JStr s))) ->
  forall st, exists st', summary_rows rows st = inr st'.
Proof.
  induction rows as [|row rows IH]; intros Hrows st; simpl; [eauto|].
  destruct (Hrows row (or_introl eq_refl)) as (cells & -> & Hname).
  assert (Hrow : exists st1, summary_row (JArr cells) st = inr st1).
  { unfold summary_row. simpl.
    destruct (4 <=? Z.of_nat (List.length cells)) eqn:Hlen; [|eauto].
    apply Z.leb_le in Hlen.
    destruct Hname as [s Hs]; [lia|].
    rewrite (item_arr _ _ _ _ _ Hs). simpl.
    destruct (summary_amounts (JArr cells)) as [e|[[b sl] d]] eqn:Ha; [|eauto].
    assert (He : e = ValueError \/ e = AttributeError).
    { unfold summary_amounts in Ha.
      destruct (nth_error cells 1) as [c1|] eqn:H1;
        [|apply nth_error_None in H1; lia].
      destruct (nth_error cells 2) as [c2|] eqn:H2;
        [|apply nth_error_None in H2; lia].
      destruct (nth_error cells 3) as [c3|] eqn:H3;
        [|apply nth_error_None in H3; lia].
      rewrite (item_arr _ _ _ _ _ H1), (item_arr _ _ _ _ _ H2),
        (item_arr _ _ _ _ _ H3) in Ha.
      destruct (cell_int c1) eqn:E1; simpl in Ha;
        [injection Ha as <-; eapply cell_int_raises; eassumption|].
      destruct (cell_int c2) eqn:E2; simpl in Ha;
        [injection Ha as <-; eapply cell_int_raises; eassumption|].
      destruct (cell_int c3) eqn:E3; simpl in Ha;
        [injection Ha as <-; eapply cell_int_raises; eassumption|].
      discriminate. }
    destruct He as [-> | ->]; eauto. }
  destruct Hrow as [st1 ->]. simpl. apply IH.
  intros r Hr. apply Hrows. right. exact Hr.
Qed.

(** ** The stock parser *)

Lemma cell_int_err (c : json) (e : exn) :
  cell_int c = inl e -> handled e = true.
Proof.
  destruct c; simpl; try (intros [= <-]; reflexivity).
  intro H. apply py_int_err in H. subst e. reflexivity.
Qed.

Lemma py_strip_err (c : json) (e : exn) :
  py_strip c = inl e -> handled e = true.
Proof. destruct c; simpl; intros [= <-]; reflexivity. Qed.

Lemma optional_int_err (c : json) (e : exn) :
  optional_int c = inl e -> handled e = true.
Proof.
  unfold optional_int. destruct (truthy c); [apply cell_int_err|discriminate].
Qed.

(** Reading a cell of a list of cells and using it raises nothing but what
    the use raises, or [IndexError]. *)
Lemma item_arr_err {A : Type} (cells : list json) (i : nat)
  (f : json -> py_res A) (e : exn) :
  (forall c e', f c = inl e' -> handled e' = true) ->
  item (JArr cells) i f = inl e -> handled e = true.
Proof.
  intros Hf. unfold item. simpl.
  destruct (nth_error cells i) as [c|]; simpl.
  - apply Hf.
  - intros [= <-]. reflexivity.
Qed.

Create HintDb row_errors.

#[local] Hint Resolve cell_int_err py_strip_err optional_int_err : row_errors.

(** Splits the next [x <- c ;; k] of a goal or of hypothesis [H] on the
    result of [c]. *)
Ltac step_bind H :=
  match type of H with
  | context [bind ?c _] =>
      let Hc := fresh "Hc" in
      destruct c eqn:Hc; cbn [bind] in H
  end.

(** On a list of cells the [try] block raises only exceptions the handler
    catches. *)
Lemma stock_of_row_arr_err (cells : list json) (n : Z) (e : exn) :
  stock_of_row (JArr cells) n = inl e -> handled e = true.
Proof.
  unfold stock_of_row. intro H.
  repeat (step_bind H;
          [ injection H as <-;
            first [ eapply item_arr_err; [|eassumption]; eauto with row_errors
                  | idtac ]
          | ]);
    try discriminate.
  destruct (17 <? n); [|discriminate].
  eapply item_arr_err; [|eassumption]; eauto with row_errors.
Qed.

(** What an accepted row says of its record: every field is the value of
    the expression the source computes for it. *)
Lemma stock_of_row_inr (row : json) (n : Z) (s : Stock.t) :
  stock_of_row row n = inr s ->
  item row 0 py_strip = inr (Stock.code s) /\
  item row 1 py_strip = inr (Stock.name s) /\
  item row 4 cell_int = inr (Stock.foreign_diff s) /\
  item row 10 cell_int = inr (Stock.trust_diff s) /\
  (exists d1 d2,
      item row 11 cell_int = inr d1 /\
      item row 14 cell_int = inr d2 /\
      Stock.dealer_diff s = d1 + d2) /\
  (if 17 <? n
   then item row 17 cell_int = inr (Stock.total_diff s)
   else Stock.total_diff s =
        Stock.foreign_diff s + Stock.trust_diff s + Stock.dealer_diff s) /\
  item row 2 optional_int = inr (Stock.foreign_buy s) /\
  item row 3 optional_int = inr (Stock.foreign_sell s) /\
  item row 8 optional_int = inr (Stock.trust_buy s) /\
  item row 9 optional_int = inr (Stock.trust_sell s).
Proof.
  unfold stock_of_row. intro H.
  repeat (step_bind H; [discriminate|]).
  injection H as <-. cbn.
  repeat split; try reflexivity.
  - eauto.
  - destruct (17 <? n).
    + assumption.
    + match goal with Hc : ret _ = inr _ |- _ => injection Hc as <- end.
      reflexivity.
Qed.

(** The loop appends the records of the rows, row by row. *)
Lemma parse_stock_rows_inr (rows : list json) :
  forall stocks stocks',
    parse_stock_rows rows stocks = inr stocks' ->
    stocks' = stocks ++ flat_map records_of_row rows.
Proof.
  induction rows as [|row rows IH]; intros stocks stocks' H; simpl in H.
  - injection H as <-. simpl. symmetry. apply app_nil_r.
  - unfold records_of_row at 1. simpl.
    destruct (parse_stock_row row) as [e|[s|]]; simpl in H; [discriminate| |].
    + rewrite (IH _ _ H), <- app_assoc. reflexivity.
    + exact (IH _ _ H).
Qed.

Lemma parse_stock_rows_total (rows : list json) :
  (forall row, In row rows -> exists o, parse_stock_row row = inr o) ->
  forall stocks,
    parse_stock_rows rows stocks = inr (stocks ++ flat_map records_of_row rows).
Proof.
  induction rows as [|row rows IH]; intros Hrows stocks; simpl.
  - rewrite app_nil_r. reflexivity.
  - destruct (Hrows row (or_introl eq_refl)) as [o Ho].
    unfold records_of_row at 1. rewrite Ho. simpl.
    rewrite IH by (intros r Hr; apply Hrows; right; exact Hr).
    destruct o; [rewrite <- app_assoc|]; reflexivity.
Qed.

(** A row that is a list of cells never makes the loop raise. *)
Lemma parse_stock_row_arr (cells : list json) :
  exists o, parse_stock_row (JArr cells) = inr o.
Proof.
  unfold parse_stock_row. simpl.
  destruct (17 <=? Z.of_nat (List.length cells)); [|eexists; reflexivity].
  destruct (stock_of_row (JArr cells) _) as [e|s] eqn:Hs;
    [|eexists; reflexivity].
  apply stock_of_row_arr_err in Hs.
  destruct e; try discriminate; eexists; reflexivity.
Qed.

(** A record of [stocks] comes from a row of the table that the [try]
    block turned into it. *)
Lemma records_of_row_In (row : json) (s : Stock.t) :
  In s (records_of_row row) ->
  exists n, py_len row = inr n /\ 17 <= n /\ stock_of_row row n = inr s.
Proof.
  unfold records_of_row, parse_stock_row.
  destruct (py_len row) as [e|n]; simpl; [tauto|].
  destruct (17 <=? n) eqn:Hn; simpl; [|tauto].
  destruct (stock_of_row row n) as [e|s'] eqn:Hs.
  - destruct e; simpl; tauto.
  - simpl. intros [<-|[]]. exists n. repeat split; auto.
    apply Z.leb_le. exact Hn.
Qed.

Lemma parse_stock_rows_app (l1 l2 : list json) :
  forall stocks,
    parse_stock_rows (l1 ++ l2) stocks =
    (st <- parse_stock_rows l1 stocks ;; parse_stock_rows l2 st).
Proof.
  induction l1 as [|row l1 IH]; intro stocks; simpl; [reflexivity|].
  destruct (parse_stock_row row) as [e|o]; simpl; [reflexivity|]. apply IH.
Qed.

(** The stocks of a result are the records of the rows of the table. *)
Lemma parse_stock_chip_data_stocks (data : dict) (date_str : pystr)
  (res : StockList.t) :
  parse_stock_chip_data data date_str = inr res ->
  exists rows,
    py_iter (dict_get data (py "data") (JArr [])) = inr rows /\
    StockList.stocks res = flat_map records_of_row rows /\
    res = StockList.mk date_str (StockList.stocks res)
            (firstn 10 (sorted Stock.foreign_diff true (StockList.stocks res)))
            (firstn 10 (sorted Stock.foreign_diff false (StockList.stocks res)))
            (firstn 10 (sorted Stock.trust_diff true (StockList.stocks res)))
            (firstn 10 (sorted Stock.trust_diff false (StockList.stocks res))).
Proof.
  unfold parse_stock_chip_data. intro H.
  destruct (py_iter _) as [e|rows]; simpl in H; [discriminate|].
  destruct (parse_stock_rows rows []) as [e|stocks] eqn:Hrows; simpl in H;
    [discriminate|].
  injection H as <-. exists rows. cbn [StockList.stocks].
  repeat split. exact (parse_stock_rows_inr rows [] stocks Hrows).
Qed.

(** C3.  Every record of [stocks] comes from a row of the table with at
    least 17 cells.  Its [dealer_diff] is the sum of the integers decoded
    from cells 11 and 14.  When the row has a cell 17, [total_diff] is the
    integer decoded from that cell (commas removed); when the row has
    exactly 17 cells, [total_diff] is
    [foreign_diff + trust_diff + dealer_diff]. *)
Theorem C3_total_diff_of_accepted_row :
  forall (data : dict) (date_str : pystr) (res : StockList.t) (s : Stock.t),
    parse_stock_chip_data data date_str = inr res ->
    In s (StockList.stocks res) ->
    exists rows row n,
      py_iter (dict_get data (py "data") (JArr [])) = inr rows /\
      In row rows /\
      py_len row = inr n /\
      17 <= n /\
      item row 4 cell_int = inr (Stock.foreign_diff s) /\
      item row 10 cell_int = inr (Stock.trust_diff s) /\
      (exists d1 d2,
          item row 11 cell_int = inr d1 /\
          item row 14 cell_int = inr d2 /\
          Stock.dealer_diff s = d1 + d2) /\
      (17 < n -> item row 17 cell_int = inr (Stock.total_diff s)) /\
      (n = 17 ->
       Stock.total_diff s =
       Stock.foreign_diff s + Stock.trust_diff s + Stock.dealer_diff s).
Proof.
  intros data date_str res s Hparse Hin.
  destruct (parse_stock_chip_data_stocks data date_str res Hparse)
    as (rows & Hiter & Hstocks & _).
  rewrite Hstocks in Hin. apply in_flat_map in Hin.
  destruct Hin as (row & Hrow & Hs).
  destruct (records_of_row_In row s Hs) as (n & Hlen & Hn & Hrec).
  destruct (stock_of_row_inr row n s Hrec)
    as (_ & _ & H4 & H10 & Hdealer & Htotal & _).
  exists rows, row, n. repeat split; try assumption.
  - intro H17. apply Z.ltb_lt in H17. rewrite H17 in Htotal. exact Htotal.
  - intros ->. exact Htotal.
Qed.

Lemma C3_total_diff_of_accepted_row_witness :
  exists rows row n,
    py_iter (dict_get stock_doc (py "data") (JArr [])) = inr rows /\
    In row rows /\
    py_len row = inr n /\
    17 <= n /\
    item row 4 cell_int = inr (-300) /\
    item row 10 cell_int = inr 40 /\
    (exists d1 d2,
        item row 11 cell_int = inr d1 /\
        item row 14 cell_int = inr d2 /\
        6 = d1 + d2) /\
    (17 < n -> item row 17 cell_int = inr 1234) /\
    (n = 17 -> 1234 = -300 + 40 + 6).
Proof.
  apply (C3_total_diff_of_accepted_row stock_doc sample_date stock_list hon_hai).
  - vm_compute. reflexivity.
  - right. left. reflexivity.
Defined.

Lemma nth_error_length_lt {A : Type} (l : list A) (i : nat) (x : A) :
  nth_error l i = Some x -> (i < List.length l)%nat.
Proof. intro H. apply nth_error_Some. rewrite H. discriminate. Qed.

(** A list of cells of which the [try] block yields no record is passed
    over. *)
Lemma parse_stock_row_none (cells : list json) :
  (forall s, stock_of_row (JArr cells) (Z.of_nat (List.length cells)) <> inr s) ->
  parse_stock_row (JArr cells) = inr None.
Proof.
  intro Hno. unfold parse_stock_row. simpl.
  destruct (17 <=? Z.of_nat (List.length cells)); [|reflexivity].
  destruct (stock_of_row (JArr cells) _) as [e|s] eqn:Hs.
  - apply stock_of_row_arr_err in Hs. destruct e; try discriminate; reflexivity.
  - destruct (Hno s eq_refl).
Qed.

(** C10.  A row of 18 cells or more whose cell 17 does not decode to an
    integer when its commas are removed (an empty string, another string
    that is no number, a value that is no string) is passed over: the sum
    [foreign_diff + trust_diff + dealer_diff] does not stand in for the
    cell, and the result of the parser is the one of the table without
    that row. *)
Theorem C10_bad_total_cell_skips_row :
  forall (data data' : dict) (date_str : pystr) (pre post cells : list json)
         (c17 : json) (e : exn),
    dict_lookup data (py "data") = Some (JArr (pre ++ JArr cells :: post)) ->
    dict_lookup data' (py "data") = Some (JArr (pre ++ post)) ->
    (18 <= List.length cells)%nat ->
    nth_error cells 17 = Some c17 ->
    cell_int c17 = inl e ->
    parse_stock_row (JArr cells) = inr None /\
    parse_stock_chip_data data date_str = parse_stock_chip_data data' date_str.
Proof.
  intros data data' date_str pre post cells c17 e Hd Hd' Hlen H17 Hbad.
  assert (Hnone : parse_stock_row (JArr cells) = inr None).
  { apply parse_stock_row_none. intros s Hs.
    destruct (stock_of_row_inr _ _ _ Hs) as (_ & _ & _ & _ & _ & Htotal & _).
    replace (17 <? Z.of_nat (List.length cells)) with true in Htotal
      by (symmetry; apply Z.ltb_lt; lia).
    rewrite (item_arr _ cells 17 cell_int c17 H17) in Htotal. congruence. }
  split; [exact Hnone|].
  unfold parse_stock_chip_data, dict_get. rewrite Hd, Hd'. simpl.
  rewrite !parse_stock_rows_app. simpl. rewrite Hnone. reflexivity.
Qed.

Lemma C10_bad_total_cell_skips_row_witness :
  parse_stock_row (JArr (stock_row "2002" "中鋼" "1" "1" ++ [JStr (py "")])) =
    inr None /\
  parse_stock_chip_data stock_doc sample_date =
    parse_stock_chip_data stock_doc_without_bad_total sample_date.
Proof.
  apply (C10_bad_total_cell_skips_row stock_doc stock_doc_without_bad_total
           sample_date
           [JArr (stock_row " 2330 " "台積電" "5,000" "-20");
            JArr (stock_row "2317" "鴻海" "-300" "40" ++ [JStr (py "1,234")]);
            JArr (stock_row "2454" "聯發科" "5,000" "40");
            JArr (stock_row "1101" "台泥" "12" "x")]
           [JArr [JStr (py "2603"); JStr (py "長榮")]]
           (stock_row "2002" "中鋼" "1" "1" ++ [JStr (py "")])
           (JStr (py "")) ValueError).
  - vm_compute. reflexivity.
  - vm_compute. reflexivity.
  - simpl. lia.
  - reflexivity.
  - reflexivity.
Defined.

(** A row the statements call passed over yields no record. *)
Lemma passed_over_no_record (cells : list json) :
  passed_over cells ->
  parse_stock_row (JArr cells) = inr None.
Proof.
  intro Hp.
  destruct (Nat.lt_ge_cases (List.length cells) 17) as [Hshort|Hlong].
  { unfold parse_stock_row. simpl.
    replace (17 <=? Z.of_nat (List.length cells)) with false
      by (symmetry; apply Z.leb_gt; lia).
    reflexivity. }
  apply parse_stock_row_none. intros r Hr.
  destruct (stock_of_row_inr _ _ _ Hr)
    as (H0 & H1 & H4 & H10 & (d1 & d2 & H11 & H14 & _) & H17 & H2 & H3 & H8 & H9).
  destruct Hp as [Hlt | i s Hi Hnth Hint | i c Hi Hnth Hns | i c e Hi Hnth Ht Hint].
  - lia.
  - assert (Hcell : cell_int (JStr s) = inl ValueError) by exact Hint.
    simpl in Hi.
    destruct Hi as [<-|[<-|[<-|[<-|[<-|[]]]]]];
      try (rewrite (item_arr _ _ _ _ _ Hnth) in *; congruence).
    apply nth_error_length_lt in Hnth as Hl.
    replace (17 <? Z.of_nat (List.length cells)) with true in H17
      by (symmetry; apply Z.ltb_lt; lia).
    rewrite (item_arr _ _ _ _ _ Hnth) in H17. congruence.
  - assert (Hs : exists e, py_strip c = inl e)
      by (destruct c; simpl; eauto; destruct (Hns s eq_refl)).
    assert (Hc : exists e, cell_int c = inl e)
      by (destruct c; simpl; eauto; destruct (Hns s eq_refl)).
    destruct Hs as [e1 Hs], Hc as [e2 Hc].
    simpl in Hi.
    destruct Hi as [<-|[<-|[<-|[<-|[<-|[<-|[<-|[]]]]]]]];
      try (rewrite (item_arr _ _ _ _ _ Hnth) in *; congruence).
    apply nth_error_length_lt in Hnth as Hl.
    replace (17 <? Z.of_nat (List.length cells)) with true in H17
      by (symmetry; apply Z.ltb_lt; lia).
    rewrite (item_arr _ _ _ _ _ Hnth) in H17. congruence.
  - assert (Ho : optional_int c = inl e)
      by (unfold optional_int; rewrite Ht; exact Hint).
    simpl in Hi.
    destruct Hi as [<-|[<-|[<-|[<-|[]]]]];
      rewrite (item_arr _ _ _ _ _ Hnth) in *; congruence.
Qed.

(** C9.  On a document whose ["data"] is a list of rows, each a list of
    cells of any JSON type, [parse_stock_chip_data] returns a result, and
    its [stocks] are the records of the rows in row order.  A row adds no
    record when it has fewer than 17 cells, when one of its required
    numbers (cells 4, 10, 11, 14, and 17 when present) does not decode,
    when one of the cells the parser treats as a string (0, 1 and the
    required numbers) is no string, or when an optional number that is
    present does not decode. *)
Theorem C9_stock_parser_total_on_tables :
  forall (data : dict) (date_str : pystr) (rows : list json),
    dict_get data (py "data") (JArr []) = JArr rows ->
    (forall row, In row rows -> exists cells, row = JArr cells) ->
    (exists res,
        parse_stock_chip_data data date_str = inr res /\
        StockList.stocks res = flat_map records_of_row rows) /\
    (forall cells,
        In (JArr cells) rows ->
        passed_over cells ->
        parse_stock_row (JArr cells) = inr None /\
        records_of_row (JArr cells) = []).
Proof.
  intros data date_str rows Hdata Hrows. split.
  - unfold parse_stock_chip_data. rewrite Hdata. simpl.
    rewrite (parse_stock_rows_total rows).
    + simpl. eexists. split; reflexivity.
    + intros row Hin. destruct (Hrows row Hin) as [cells ->].
      apply parse_stock_row_arr.
  - intros cells _ Hp. pose proof (passed_over_no_record cells Hp) as Hnone.
    split; [exact Hnone|]. unfold records_of_row. rewrite Hnone. reflexivity.
Qed.

Lemma C9_stock_parser_total_on_tables_witness :
  (exists res,
      parse_stock_chip_data stock_doc sample_date = inr res /\
      StockList.stocks res = flat_map records_of_row stock_rows) /\
  (forall cells,
      In (JArr cells) stock_rows ->
      passed_over cells ->
      parse_stock_row (JArr cells) = inr None /\
      records_of_row (JArr cells) = []).
Proof.
  apply (C9_stock_parser_total_on_tables stock_doc sample_date stock_rows).
  - vm_compute. reflexivity.
  - intros row Hin. unfold stock_rows in Hin. simpl in Hin.
    repeat (destruct Hin as [<-|Hin]; [eexists; reflexivity|]).
    destruct Hin.
Defined.

(** ** The rankings *)

Section Sorting.
Variable A : Type.
Variable key : A -> Z.

Let le_key (a b : A) : Prop := key a <= key b.

Lemma insert_by_In (x y : A) (l : list A) :
  In y (insert_by key x l) <-> y = x \/ In y l.
Proof.
  induction l as [|z l IH]; simpl.
  - intuition congruence.
  - destruct (key x <=? key z); simpl; [intuition congruence|].
    rewrite IH. intuition congruence.
Qed.

Lemma sort_by_In (y : A) (l : list A) : In y (sort_by key l) <-> In y l.
Proof.
  induction l as [|x l IH]; simpl; [tauto|].
  rewrite insert_by_In, IH. intuition congruence.
Qed.

Lemma insert_by_sorted (x : A) (l : list A) :
  StronglySorted le_key l -> StronglySorted le_key (insert_by key x l).
Proof.
  induction 1 as [|z l Hs IH Hz]; simpl.
  - constructor; constructor.
  - destruct (key x <=? key z) eqn:Hxz.
    + apply Z.leb_le in Hxz. constructor.
      * constructor; assumption.
      * constructor; [exact Hxz|].
        eapply Forall_impl; [|exact Hz].
        intros a Ha. unfold le_key in *. lia.
    + apply Z.leb_gt in Hxz. constructor; [exact IH|].
      apply Forall_forall. intros a Ha. apply insert_by_In in Ha.
      destruct Ha as [->|Ha].
      * unfold le_key. lia.
      * rewrite Forall_forall in Hz. apply Hz. exact Ha.
Qed.

Lemma sort_by_sorted (l : list A) : StronglySorted le_key (sort_by key l).
Proof.
  induction l as [|x l IH]; simpl; [constructor|].
  apply insert_by_sorted. exact IH.
Qed.

(** Insertion passes only over elements of smaller key, so among the
    elements of one key the new one comes first. *)
Lemma filter_insert_by (k : Z) (x : A) (l : list A) :
  filter (fun a => key a =? k) (insert_by key x l) =
  if key x =? k then x :: filter (fun a => key a =? k) l
  else filter (fun a => key a =? k) l.
Proof.
  induction l as [|z l IH]; simpl.
  - destruct (key x =? k); reflexivity.
  - destruct (key x <=? key z) eqn:Hxz; simpl.
    + destruct (key x =? k); reflexivity.
    + rewrite IH. apply Z.leb_gt in Hxz.
      destruct (key x =? k) eqn:Hx; [|reflexivity].
      apply Z.eqb_eq in Hx.
      replace (key z =? k) with false by (symmetry; apply Z.eqb_neq; lia).
      reflexivity.
Qed.

Lemma sort_by_stable (k : Z) (l : list A) :
  filter (fun a => key a =? k) (sort_by key l) =
  filter (fun a => key a =? k) l.
Proof.
  induction l as [|x l IH]; simpl; [reflexivity|].
  rewrite filter_insert_by, IH. reflexivity.
Qed.

Lemma StronglySorted_snoc (R : A -> A -> Prop) (l : list A) (x : A) :
  StronglySorted R l -> Forall (fun a => R a x) l ->
  StronglySorted R (l ++ [x]).
Proof.
  induction 1 as [|z l Hs IH Hz]; intro Hx; simpl.
  - constructor; constructor.
  - inversion Hx as [|? ? Hzx Hlx]; subst. constructor; [auto|].
    apply Forall_app. split; [exact Hz | constructor; [exact Hzx|constructor]].
Qed.

Lemma StronglySorted_rev (R : A -> A -> Prop) (l : list A) :
  StronglySorted R l -> StronglySorted (fun a b => R b a) (rev l).
Proof.
  induction 1 as [|z l Hs IH Hz]; simpl; [constructor|].
  apply StronglySorted_snoc; [exact IH|].
  apply Forall_rev. exact Hz.
Qed.

Lemma StronglySorted_firstn (R : A -> A -> Prop) (n : nat) (l : list A) :
  StronglySorted R l -> StronglySorted R (firstn n l).
Proof.
  intro Hs. revert n. induction Hs as [|z l Hs IH Hz]; intros [|n]; simpl;
    try constructor.
  - apply IH.
  - apply Forall_forall. intros a Ha. rewrite Forall_forall in Hz.
    apply Hz. rewrite <- (firstn_skipn n l). apply in_or_app. left. exact Ha.
Qed.

(** [sorted] is a stable sort in both directions. *)
Lemma sorted_In (reverse : bool) (y : A) (l : list A) :
  In y (sorted key reverse l) <-> In y l.
Proof.
  unfold sorted. destruct reverse.
  - rewrite <- in_rev, sort_by_In, <- in_rev. tauto.
  - apply sort_by_In.
Qed.

Lemma sorted_stable (reverse : bool) (k : Z) (l : list A) :
  filter (fun a => key a =? k) (sorted key reverse l) =
  filter (fun a => key a =? k) l.
Proof.
  unfold sorted. destruct reverse.
  - rewrite filter_rev, sort_by_stable, filter_rev. apply rev_involutive.
  - apply sort_by_stable.
Qed.

Lemma sorted_ascending (l : list A) :
  StronglySorted (fun a b => key a <= key b) (sorted key false l).
Proof. apply sort_by_sorted. Qed.

Lemma sorted_descending (l : list A) :
  StronglySorted (fun a b => key a >= key b) (sorted key true l).
Proof.
  unfold sorted.
  pose proof (StronglySorted_rev _ _ (sort_by_sorted (rev l))) as H.
  eapply StronglySorted_ind with (P := StronglySorted (fun a b => key a >= key b));
    [constructor | | exact H].
  intros a l' _ IH Ha. constructor; [exact IH|].
  eapply Forall_impl; [|exact Ha]. intros b Hb. unfold le_key in Hb. lia.
Qed.
End Sorting.

(** The first ten of a stable sort are a ranking. *)
Lemma top10_ranking (key : Stock.t -> Z) (reverse : bool)
  (stocks : list Stock.t) :
  ranking key (if reverse then Z.ge else Z.le) stocks
    (firstn 10 (sorted key reverse stocks)).
Proof.
  unfold ranking. repeat split.
  - apply firstn_le_length.
  - intros s Hs. apply (sorted_In _ key reverse).
    rewrite <- (firstn_skipn 10 (sorted key reverse stocks)).
    apply in_or_app. left. exact Hs.
  - apply StronglySorted_firstn. destruct reverse.
    + apply sorted_descending.
    + apply sorted_ascending.
  - intro k. exists (filter (fun s => key s =? k)
                       (skipn 10 (sorted key reverse stocks))).
    rewrite <- filter_app, firstn_skipn. symmetry. apply sorted_stable.
Qed.

(** C4.  In a result of [parse_stock_chip_data] each of the four top
    lists has at most 10 records, all of them records of [stocks];
    [top_foreign_buy] and [top_trust_buy] are sorted non-increasing by
    [foreign_diff] and [trust_diff], [top_foreign_sell] and
    [top_trust_sell] non-decreasing; and the records of one key value
    appear in a top list in their order in [stocks], earliest first. *)
Theorem C4_top_lists_are_rankings :
  forall (data : dict) (date_str : pystr) (res : StockList.t),
    parse_stock_chip_data data date_str = inr res ->
    ranking Stock.foreign_diff Z.ge
      (StockList.stocks res) (StockList.top_foreign_buy res) /\
    ranking Stock.foreign_diff Z.le
      (StockList.stocks res) (StockList.top_foreign_sell res) /\
    ranking Stock.trust_diff Z.ge
      (StockList.stocks res) (StockList.top_trust_buy res) /\
    ranking Stock.trust_diff Z.le
      (StockList.stocks res) (StockList.top_trust_sell res).
Proof.
  intros data date_str res Hparse.
  destruct (parse_stock_chip_data_stocks data date_str res Hparse)
    as (rows & _ & _ & Hres).
  rewrite Hres. cbn [StockList.stocks StockList.top_foreign_buy
                     StockList.top_foreign_sell StockList.top_trust_buy
                     StockList.top_trust_sell].
  repeat split;
    first [ apply (top10_ranking Stock.foreign_diff true)
          | apply (top10_ranking Stock.foreign_diff false)
          | apply (top10_ranking Stock.trust_diff true)
          | apply (top10_ranking Stock.trust_diff false) ].
Qed.

Lemma C4_top_lists_are_rankings_witness :
  ranking Stock.foreign_diff Z.ge
    (StockList.stocks stock_list) (StockList.top_foreign_buy stock_list) /\
  ranking Stock.foreign_diff Z.le
    (StockList.stocks stock_list) (StockList.top_foreign_sell stock_list) /\
  ranking Stock.trust_diff Z.ge
    (StockList.stocks stock_list) (StockList.top_trust_buy stock_list) /\
  ranking Stock.trust_diff Z.le
    (StockList.stocks stock_list) (StockList.top_trust_sell stock_list).
Proof.
  apply (C4_top_lists_are_rankings stock_doc sample_date stock_list).
  vm_compute. reflexivity.
Defined.

(** ** The lookup *)

Lemma find_code_some (stocks : list Stock.t) (q : pystr) (s : Stock.t) :
  find_code stocks q = Some s <->
  exists l1 l2,
    stocks = l1 ++ s :: l2 /\
    Stock.code s = q /\
    forall x, In x l1 -> Stock.code x <> q.
Proof.
  induction stocks as [|a stocks IH]; simpl.
  - split; [discriminate|]. intros (l1 & l2 & H & _). destruct l1; discriminate.
  - destruct (str_eqb (Stock.code a) q) eqn:Ha.
    + apply str_eqb_eq in Ha. split.
      * intros [= <-]. exists [], stocks. repeat split; [exact Ha|].
        intros x [].
      * intros (l1 & l2 & H & Hs & Hl1). destruct l1 as [|b l1].
        -- injection H as -> _. reflexivity.
        -- injection H as <- _. destruct (Hl1 a (or_introl eq_refl) Ha).
    + apply str_eqb_neq in Ha. rewrite IH. split.
      * intros (l1 & l2 & -> & Hs & Hl1). exists (a :: l1), l2.
        repeat split; [exact Hs|]. intros x [<-|Hx]; auto.
      * intros (l1 & l2 & H & Hs & Hl1). destruct l1 as [|b l1].
        -- injection H as <- _. contradiction.
        -- injection H as <- ->. exists l1, l2. repeat split; [exact Hs|].
           intros x Hx. apply Hl1. right. exact Hx.
Qed.

Lemma find_code_none (stocks : list Stock.t) (q : pystr) :
  find_code stocks q = None <-> forall x, In x stocks -> Stock.code x <> q.
Proof.
  induction stocks as [|a stocks IH]; simpl.
  - split; [intros _ x []|reflexivity].
  - destruct (str_eqb (Stock.code a) q) eqn:Ha.
    + apply str_eqb_eq in Ha. split; [discriminate|].
      intro H. destruct (H a (or_introl eq_refl) Ha).
    + apply str_eqb_neq in Ha. rewrite IH. split.
      * intros H x [<-|Hx]; auto.
      * intros H x Hx. apply H. right. exact Hx.
Qed.

(** C7.  [get_stock_detail] returns the first record of [stocks] whose
    code is the query, read as the same string: the records before it have
    other codes; and it returns [None] exactly when no record has that
    code.  On stocks of codes "2330" and "2317" the query "2317" yields
    the second record and the query "9999" yields [None]; of two records
    with the code of the query the earlier one is returned. *)
Theorem C7_get_stock_detail_first_match :
  (forall (r : StockList.t) (q : pystr) (s : Stock.t),
      get_stock_detail r q = Some s <->
      exists l1 l2,
        StockList.stocks r = l1 ++ s :: l2 /\
        Stock.code s = q /\
        forall x, In x l1 -> Stock.code x <> q) /\
  (forall (r : StockList.t) (q : pystr),
      get_stock_detail r q = None <->
      forall x, In x (StockList.stocks r) -> Stock.code x <> q) /\
  (forall (r : StockList.t) (a b : Stock.t),
      StockList.stocks r = [a; b] ->
      Stock.code a = py "2330" ->
      Stock.code b = py "2317" ->
      get_stock_detail r (py "2317") = Some b /\
      get_stock_detail r (py "9999") = None) /\
  (forall (r : StockList.t) (a b : Stock.t) (l1 l2 l3 : list Stock.t),
      StockList.stocks r = l1 ++ a :: l2 ++ b :: l3 ->
      Stock.code a = Stock.code b ->
      (forall x, In x l1 -> Stock.code x <> Stock.code a) ->
      get_stock_detail r (Stock.code b) = Some a).
Proof.
  unfold get_stock_detail. split; [|split; [|split]].
  - intros r q s. apply find_code_some.
  - intros r q. apply find_code_none.
  - intros r a b Hr Ha Hb. rewrite Hr. simpl. rewrite Ha, Hb.
    split; vm_compute; reflexivity.
  - intros r a b l1 l2 l3 Hr Hab Hl1. apply find_code_some.
    exists l1, (l2 ++ b :: l3). rewrite <- Hab. repeat split; assumption.
Qed.

(** * Further properties of the service *)

(** ** Every run of the fetch loop *)

(** From attempt [a] with [todo] iterations left, the last of the
    [max_retries]: the loop records [k] failures, sleeping after each, and
    ends with the request of attempt [a + k]. *)
Lemma retry_loop_shape (net : nat -> response) (url : pystr)
  (max_retries : Z) (base_delay max_delay : Q) :
  forall todo a last,
    Z.of_nat (a + S todo) = max_retries ->
    exists k,
      (k <= todo)%nat /\
      (forall i, (a <= i < a + k)%nat ->
                 exists e, attempt url (net i) = Recorded e) /\
      (k = todo \/ forall e, attempt url (net (a + k)%nat) <> Recorded e) /\
      retry_loop net url max_retries base_delay max_delay (S todo) a last =
        (failed_prefix base_delay max_delay a k ++ [Get (a + k)%nat],
         outcome (attempt url (net (a + k)%nat))).
Proof.
  induction todo as [|todo IH]; intros a last Hn.
  - exists 0%nat. rewrite Nat.add_0_r. repeat split; [lia | intros; lia | auto |].
    simpl. destruct (attempt url (net a)) as [d|e|e]; try reflexivity.
    replace (Z.of_nat a <? max_retries - 1) with false
      by (symmetry; apply Z.ltb_ge; lia).
    reflexivity.
  - destruct (attempt url (net a)) as [d|e|e] eqn:Ha.
    + exists 0%nat. rewrite Nat.add_0_r.
      repeat split; [lia | intros; lia | right; congruence |].
      simpl. rewrite Ha. reflexivity.
    + exists 0%nat. rewrite Nat.add_0_r.
      repeat split; [lia | intros; lia | right; congruence |].
      simpl. rewrite Ha. reflexivity.
    + destruct (IH (S a) (Some e)) as (k & Hk & Hrec & Hstop & Hrun); [lia|].
      exists (S k). replace (a + S k)%nat with (S a + k)%nat by lia.
      repeat split.
      * lia.
      * intros i Hi. destruct (Nat.eq_dec i a) as [->|Hne]; [eauto|].
        apply Hrec. lia.
      * destruct Hstop as [->|Hstop]; [left; reflexivity | right; exact Hstop].
      * change (retry_loop net url max_retries base_delay max_delay
                  (S (S todo)) a last)
          with (match attempt url (net a) with
                | Returned data => ([Get a], inr data)
                | Propagated e0 => ([Get a], inl e0)
                | Recorded e0 =>
                    (Get a ::
                     (if Z.of_nat a <? max_retries - 1
                      then [Sleep (backoff base_delay max_delay a)]
                      else []) ++
                     fst (retry_loop net url max_retries base_delay max_delay
                            (S todo) (S a) (Some e0)),
                     snd (retry_loop net url max_retries base_delay max_delay
                            (S todo) (S a) (Some e0)))
                end).
        rewrite Ha, Hrun.
        replace (Z.of_nat a <? max_retries - 1) with true
          by (symmetry; apply Z.ltb_lt; lia).
        reflexivity.
Qed.



(** X2.  With [max_retries <= 0] the loop body never runs: no request is
    sent, nothing is slept, and the call fails with "Request failed" and
    no status code. *)
Theorem X2_fetch_without_attempts :
  forall (net : nat -> response) (url : pystr) (max_retries : Z)
         (base_delay max_delay : Q),
    max_retries <= 0 ->
    _fetch_json net url max_retries base_delay max_delay =
      ([], inl (mkError Request_failed None)).
Proof.
  intros net url mr b m Hn. unfold _fetch_json.
  replace (Z.to_nat mr) with 0%nat by lia. reflexivity.
Qed.

Lemma X2_fetch_without_attempts_witness :
  _fetch_json net_two_failures sample_url 0 1%Q 10%Q =
    ([], inl (mkError Request_failed None)).
Proof.
  apply (X2_fetch_without_attempts net_two_failures sample_url 0 1%Q 10%Q). lia.
Defined.

(** The two ways a call can go, for the statements below. *)
Lemma fetch_json_cases (net : nat -> response) (url : pystr)
  (max_retries : Z) (base_delay max_delay : Q) :
  (max_retries <= 0 /\
   _fetch_json net url max_retries base_delay max_delay =
     ([], inl (mkError Request_failed None))) \/
  exists k,
    (k < Z.to_nat max_retries)%nat /\
    _fetch_json net url max_retries base_delay max_delay =
      (failed_prefix base_delay max_delay 0 k ++ [Get k],
       outcome (attempt url (net k))).
Proof.
  destruct (Z_le_gt_dec max_retries 0) as [Hz|Hp].
  - left. split; [exact Hz|]. unfold _fetch_json.
    replace (Z.to_nat max_retries) with 0%nat by lia. reflexivity.
  - right.
    destruct (retry_loop_shape net url max_retries base_delay max_delay
                (Z.to_nat max_retries - 1) 0 None)
      as (k & Hk & _ & _ & Hrun); [lia|].
    exists k. split; [lia|]. unfold _fetch_json.
    replace (Z.to_nat max_retries) with (S (Z.to_nat max_retries - 1)) by lia.
    exact Hrun.
Qed.

Lemma attempt_returned (url : pystr) (r : response) (data : json) :
  attempt url r = Returned data -> r = Json data /\ validate data = inr None.
Proof.
  destruct r as [| | | |d]; simpl; try discriminate.
  destruct (validate d) as [e|[stat|]] eqn:Hv; try discriminate.
  intros [= <-]. split; [reflexivity | exact Hv].
Qed.

Lemma validate_passed_stat (o : dict) (stat : json) :
  validate (JObj o) = inr None ->
  dict_lookup o (py "stat") = Some stat ->
  stat = JStr (py "OK").
Proof.
  unfold validate, contains_stat, get_stat, dict_get. intros Hv Hl.
  rewrite Hl in Hv. simpl in Hv.
  destruct (eq_str stat (py "OK")) eqn:Heq; simpl in Hv; [|discriminate].
  destruct stat; simpl in Heq; try discriminate.
  apply str_eqb_eq in Heq. rewrite Heq. reflexivity.
Qed.

(** X3.  A document the call returns is the decoded body of the last
    request it sent, and it has passed the check of the status field: when
    it is an object with a ["stat"] key, the value is the string ["OK"]. *)
Theorem X3_fetched_document_is_valid :
  forall (net : nat -> response) (url : pystr) (max_retries : Z)
         (base_delay max_delay : Q) (data : json),
    snd (_fetch_json net url max_retries base_delay max_delay) = inr data ->
    validate data = inr None /\
    (forall o stat,
        data = JObj o -> dict_lookup o (py "stat") = Some stat ->
        stat = JStr (py "OK")) /\
    exists k,
      net k = Json data /\
      requests (fst (_fetch_json net url max_retries base_delay max_delay)) =
        seq 0 (S k).
Proof.
  intros net url mr b m data Hret.
  destruct (fetch_json_cases net url mr b m) as [[_ Hrun]|(k & Hk & Hrun)];
    rewrite Hrun in *; simpl in Hret; [discriminate|].
  destruct (attempt url (net k)) as [d|e|e] eqn:Ha; simpl in Hret;
    try discriminate.
  injection Hret as ->.
  destruct (attempt_returned url (net k) data Ha) as [Hnet Hv].
  split; [exact Hv|]. split.
  - intros o stat -> Hl. exact (validate_passed_stat o stat Hv Hl).
  - exists k. split; [exact Hnet|]. cbn [fst].
    rewrite requests_app, requests_failed_prefix, seq_S. reflexivity.
Qed.

Lemma X3_fetched_document_is_valid_witness :
  validate ok_body = inr None /\
  (forall o stat,
      ok_body = JObj o -> dict_lookup o (py "stat") = Some stat ->
      stat = JStr (py "OK")) /\
  exists k,
    net_two_failures k = Json ok_body /\
    requests (fst (_fetch_json net_two_failures sample_url 3 1%Q 10%Q)) =
      seq 0 (S k).
Proof.
  apply (X3_fetched_document_is_valid net_two_failures sample_url 3 1%Q 10%Q).
  vm_compute. reflexivity.
Defined.

(** X4.  Whatever the network does, a call sends at most [max_retries]
    requests, sleeps fewer times than it sends requests, and no single
    sleep is longer than [max_delay]. *)
Theorem X4_fetch_bounds :
  forall (net : nat -> response) (url : pystr) (max_retries : Z)
         (base_delay max_delay : Q),
    let run := _fetch_json net url max_retries base_delay max_delay in
    (List.length (requests (fst run)) <= Z.to_nat max_retries)%nat /\
    (List.length (sleeps (fst run)) <= List.length (requests (fst run)) - 1)%nat /\
    Forall (fun d => (d <= max_delay)%Q) (sleeps (fst run)).
Proof.
  intros net url mr b m run.
  destruct (fetch_json_cases net url mr b m) as [[_ Hrun]|(k & Hk & Hrun)];
    unfold run; rewrite Hrun; cbn [fst].
  - simpl. repeat split; [lia | lia | constructor].
  - rewrite requests_app, sleeps_app, requests_failed_prefix,
      sleeps_failed_prefix.
    simpl. rewrite app_nil_r, length_app, length_map, length_seq. simpl.
    repeat split; [lia | lia |].
    apply Forall_forall. intros d Hd. apply in_map_iff in Hd.
    destruct Hd as (i & <- & _). apply Q.le_min_r.
Qed.

(** X5.  [fetch_chip_summary] and [fetch_stock_chip_data] run the loop
    with the defaults: whatever the network does and whichever date is
    asked, a call sends one, two or three requests and sleeps 1 second
    after the first failure and 2 seconds after the second, never more. *)
Theorem X5_service_fetch_defaults :
  forall (web : pystr -> nat -> response) (today : pystr)
         (date_str : option pystr) (run : list event * (TWSEAPIError + json)),
    run = fetch_chip_summary web today date_str \/
    run = fetch_stock_chip_data web today date_str ->
    exists k,
      (1 <= k <= 3)%nat /\
      requests (fst run) = seq 0 k /\
      sleeps (fst run) = firstn (k - 1) [1%Q; 2%Q].
Proof.
  intros web today date_str run Hrun.
  assert (H : exists net url, run = _fetch_json net url 3 1%Q 10%Q).
  { destruct Hrun as [-> | ->]; eexists; eexists; reflexivity. }
  destruct H as (net & url & ->).
  destruct (fetch_json_cases net url 3 1%Q 10%Q) as [[Hz _]|(k & Hk & Hr)].
  - lia.
  - exists (S k). rewrite Hr. cbn [fst].
    rewrite requests_app, sleeps_app, requests_failed_prefix,
      sleeps_failed_prefix, seq_S.
    change (Z.to_nat 3) with 3%nat in Hk.
    split; [lia|]. split; [reflexivity|].
    destruct k as [|[|[|k]]]; try lia; vm_compute; reflexivity.
Qed.

Lemma X5_service_fetch_defaults_witness :
  exists k,
    (1 <= k <= 3)%nat /\
    requests (fst (fetch_chip_summary (fun _ => net_two_failures)
                     sample_date None)) = seq 0 k /\
    sleeps (fst (fetch_chip_summary (fun _ => net_two_failures)
                   sample_date None)) = firstn (k - 1) [1%Q; 2%Q].
Proof.
  apply (X5_service_fetch_defaults (fun _ => net_two_failures) sample_date None).
  left. reflexivity.
Defined.

(** ** More on the summary parser *)

(** A string row behaves as the list of its characters. *)
Lemma py_getitem_cells (row : json) (cells : list json) (i : nat) :
  cells_of row = Some cells -> py_getitem row i = py_getitem (JArr cells) i.
Proof.
  destruct row; simpl; try discriminate; intros [= <-]; [|reflexivity].
  rewrite nth_error_map. destruct (nth_error s i); reflexivity.
Qed.

Lemma py_len_cells (row : json) (cells : list json) :
  cells_of row = Some cells -> py_len row = py_len (JArr cells).
Proof.
  destruct row; simpl; try discriminate; intros [= <-]; [|reflexivity].
  rewrite length_map. reflexivity.
Qed.

Lemma item_cells {A : Type} (row : json) (cells : list json) (i : nat)
  (f : json -> py_res A) :
  cells_of row = Some cells -> item row i f = item (JArr cells) i f.
Proof. intro H. unfold item. rewrite (py_getitem_cells row cells i H). reflexivity. Qed.

Lemma summary_row_cells (row : json) (cells : list json)
  (st : list Investor.t * Z) :
  cells_of row = Some cells -> summary_row row st = summary_row (JArr cells) st.
Proof.
  intro H. unfold summary_row, summary_amounts.
  rewrite (py_len_cells row cells H), !(item_cells row cells _ _ H).
  reflexivity.
Qed.

(** The three amounts of a list of four cells or more raise nothing but
    what the handler catches. *)
Lemma summary_amounts_raises (cells : list json) (e : exn) :
  (4 <= List.length cells)%nat ->
  summary_amounts (JArr cells) = inl e ->
  e = ValueError \/ e = AttributeError.
Proof.
  intros Hlen Ha. unfold summary_amounts in Ha.
  destruct (nth_error cells 1) as [c1|] eqn:H1;
    [|apply nth_error_None in H1; lia].
  destruct (nth_error cells 2) as [c2|] eqn:H2;
    [|apply nth_error_None in H2; lia].
  destruct (nth_error cells 3) as [c3|] eqn:H3;
    [|apply nth_error_None in H3; lia].
  rewrite (item_arr _ _ _ _ _ H1), (item_arr _ _ _ _ _ H2),
    (item_arr _ _ _ _ _ H3) in Ha.
  destruct (cell_int c1) eqn:E1; simpl in Ha;
    [injection Ha as <-; eapply cell_int_raises; eassumption|].
  destruct (cell_int c2) eqn:E2; simpl in Ha;
    [injection Ha as <-; eapply cell_int_raises; eassumption|].
  destruct (cell_int c3) eqn:E3; simpl in Ha;
    [injection Ha as <-; eapply cell_int_raises; eassumption|].
  discriminate.
Qed.

(** One iteration on a list of cells: it goes through exactly when the
    list is short or begins with a string, and raises [AttributeError]
    otherwise. *)
Lemma summary_row_arr (cells : list json) (st : list Investor.t * Z) :
  (summary_row_safe (JArr cells) = true /\
   exists st', summary_row (JArr cells) st = inr st') \/
  (summary_row_safe (JArr cells) = false /\
   summary_row (JArr cells) st = inl AttributeError).
Proof.
  unfold summary_row, summary_row_safe. cbn [py_len bind ret].
  destruct (4 <=? Z.of_nat (List.length cells)) eqn:Hlen.
  - apply Z.leb_le in Hlen.
    replace (List.length cells <? 4)%nat with false
      by (symmetry; apply Nat.ltb_ge; lia).
    destruct (nth_error cells 0) as [c0|] eqn:H0;
      [|apply nth_error_None in H0; lia].
    rewrite (item_arr _ _ _ _ _ H0).
    destruct c0; cbn [orb is_str py_strip bind ret raise];
      try (right; split; reflexivity).
    left. split; [reflexivity|].
    destruct (summary_amounts (JArr cells)) as [e|[[b sl] d]] eqn:Ha; [|eauto].
    destruct (summary_amounts_raises cells e) as [-> | ->]; try lia; eauto.
  - apply Z.leb_gt in Hlen. left.
    replace (List.length cells <? 4)%nat with true
      by (symmetry; apply Nat.ltb_lt; lia).
    split; [reflexivity | eauto].
Qed.

(** One iteration on any row: safe rows go through, the others raise
    [TypeError], [AttributeError] or [KeyError]. *)
Lemma summary_row_any (row : json) (st : list Investor.t * Z) :
  (summary_row_safe row = true /\ exists st', summary_row row st = inr st') \/
  (summary_row_safe row = false /\
   exists e, summary_row row st = inl e /\
             (e = TypeError \/ e = AttributeError \/ e = KeyError)).
Proof.
  destruct row as [| b | n | q | s | cells | o];
    try (right; split; [reflexivity|]; exists TypeError; split; [reflexivity|auto]).
  - left. split; [reflexivity|].
    rewrite (summary_row_cells (JStr s) _ st eq_refl).
    destruct (summary_row_arr (map (fun c => JStr [c]) s) st)
      as [[_ H]|[Hs H]]; [exact H|].
    exfalso. revert Hs. unfold summary_row_safe.
    destruct s as [|c s]; simpl; [discriminate|].
    rewrite orb_true_r. discriminate.
  - destruct (summary_row_arr cells st) as [[Hs H]|[Hs H]];
      [left; split; assumption|].
    right. split; [exact Hs|]. exists AttributeError. auto.
  - unfold summary_row, summary_row_safe. simpl.
    destruct (4 <=? Z.of_nat (List.length o)) eqn:Hlen.
    + apply Z.leb_le in Hlen. right.
      split; [apply Nat.ltb_ge; lia|].
      exists KeyError. split; [reflexivity|auto].
    + apply Z.leb_gt in Hlen. left.
      split; [apply Nat.ltb_lt; lia | eauto].
Qed.

Lemma summary_rows_safe (rows : list json) :
  forall st,
    (forallb summary_row_safe rows = true /\
     exists st', summary_rows rows st = inr st') \/
    (forallb summary_row_safe rows = false /\
     exists e, summary_rows rows st = inl e /\
               (e = TypeError \/ e = AttributeError \/ e = KeyError)).
Proof.
  induction rows as [|row rows IH]; intro st; simpl.
  - left. split; [reflexivity | eauto].
  - destruct (summary_row_any row st)
      as [(Hs & st1 & H1)|(Hs & e & H1 & He)]; rewrite Hs, H1; simpl.
    + apply IH.
    + right. split; [reflexivity | eauto].
Qed.

Lemma py_iter_raises (x : json) (e : exn) :
  py_iter x = inl e -> e = TypeError.
Proof.
  destruct x; cbv [py_iter raise ret]; intro H; inversion H; reflexivity.
Qed.

(** X6.  [parse_chip_summary] returns a result exactly when the value
    under ["data"] (an empty list when the key is missing) can be iterated
    and each row is a string, a list with fewer than four cells or with a
    string as its first cell, or a dict of fewer than four keys.  On every
    other document it raises [TypeError], [AttributeError] or [KeyError]. *)
Theorem X6_summary_parser_domain :
  forall (data : dict) (date_str : pystr),
    ((exists r, parse_chip_summary data date_str = inr r) <->
     (exists rows,
         py_iter (dict_get data (py "data") (JArr [])) = inr rows /\
         forallb summary_row_safe rows = true)) /\
    (forall e,
        parse_chip_summary data date_str = inl e ->
        e = TypeError \/ e = AttributeError \/ e = KeyError).
Proof.
  intros data date_str. unfold parse_chip_summary.
  destruct (py_iter (dict_get data (py "data") (JArr []))) as [e0|rows] eqn:Hit;
    cbn [bind].
  - assert (He0 : e0 = TypeError) by exact (py_iter_raises _ _ Hit).
    split.
    + split; [intros [r H]; discriminate | intros (rows & H & _); discriminate].
    + intros e [= <-]. auto.
  - destruct (summary_rows_safe rows ([], 0))
      as [(Hs & st & H)|(Hs & e1 & H & He1)]; rewrite H; cbn [bind ret].
    + split.
      * split; [intros _; exists rows; auto | eauto].
      * intros e H'. discriminate.
    + split.
      * split; [intros [r H']; discriminate|].
        intros (rows' & [= <-] & Hs'). congruence.
      * intros e [= <-]. exact He1.
Qed.

(** One iteration adds at most one investor, read off its row. *)
Lemma summary_row_adds (row : json) (st st' : list Investor.t * Z) :
  summary_row row st = inr st' ->
  fst st' = fst st \/
  exists inv n,
    fst st' = fst st ++ [inv] /\
    py_len row = inr n /\ 4 <= n /\
    item row 0 py_strip = inr (Investor.name inv) /\
    item row 1 cell_int = inr (Investor.buy inv) /\
    item row 2 cell_int = inr (Investor.sell inv) /\
    item row 3 cell_int = inr (Investor.diff inv).
Proof.
  unfold summary_row. intro H.
  destruct (py_len row) as [e|n]; cbn [bind] in H; [discriminate|].
  destruct (4 <=? n) eqn:Hn; [|injection H as <-; auto].
  destruct (item row 0 py_strip) as [e|name] eqn:H0; cbn [bind] in H;
    [discriminate|].
  destruct (summary_amounts row) as [e|[[b s] d]] eqn:Ha.
  - destruct e; try discriminate; injection H as <-; auto.
  - injection H as <-. right. exists (Investor.mk name b s d), n.
    cbn [fst Investor.name Investor.buy Investor.sell Investor.diff].
    apply Z.leb_le in Hn. unfold summary_amounts in Ha.
    destruct (item row 1 cell_int) as [e|b'] eqn:H1; cbn [bind] in Ha;
      [discriminate|].
    destruct (item row 2 cell_int) as [e|s'] eqn:H2; cbn [bind] in Ha;
      [discriminate|].
    destruct (item row 3 cell_int) as [e|d'] eqn:H3; cbn [bind] in Ha;
      [discriminate|].
    injection Ha as -> -> ->. repeat split; auto.
Qed.

Lemma summary_rows_adds (rows : list json) :
  forall st st',
    summary_rows rows st = inr st' ->
    forall inv, In inv (fst st') ->
      In inv (fst st) \/
      exists row n,
        In row rows /\
        py_len row = inr n /\ 4 <= n /\
        item row 0 py_strip = inr (Investor.name inv) /\
        item row 1 cell_int = inr (Investor.buy inv) /\
        item row 2 cell_int = inr (Investor.sell inv) /\
        item row 3 cell_int = inr (Investor.diff inv).
Proof.
  induction rows as [|row rows IH]; intros st st' H inv Hin; simpl in H.
  - injection H as <-. auto.
  - destruct (summary_row row st) as [e|st1] eqn:Hrow; cbn [bind] in H;
      [discriminate|].
    destruct (IH st1 st' H inv Hin) as [Hin1|(r & n & Hr & Hrest)].
    + destruct (summary_row_adds row st st1 Hrow)
        as [Heq|(inv1 & n & Heq & Hrest)].
      * left. rewrite <- Heq. exact Hin1.
      * rewrite Heq in Hin1. apply in_app_or in Hin1.
        destruct Hin1 as [Hin1|[<-|[]]]; [auto|].
        right. exists row, n. split; [left; reflexivity | exact Hrest].
    + right. exists r, n. split; [right; exact Hr | exact Hrest].
Qed.

(** X7.  A result of [parse_chip_summary] carries the date it was given
    and the title of the document (the fixed title when there is none),
    and each of its investors is read off a row of four cells or more: the
    name is cell 0 trimmed, and [buy], [sell] and [diff] are the integers
    of cells 1, 2 and 3 with the commas removed; [diff] is the cell's
    value, it is not computed from the other two. *)
Theorem X7_summary_fields_from_cells :
  forall (data : dict) (date_str : pystr) (r : Summary.t),
    parse_chip_summary data date_str = inr r ->
    Summary.date r = date_str /\
    Summary.title r = dict_get data (py "title") default_title /\
    forall inv,
      In inv (Summary.investors r) ->
      exists rows row n,
        py_iter (dict_get data (py "data") (JArr [])) = inr rows /\
        In row rows /\
        py_len row = inr n /\ 4 <= n /\
        item row 0 py_strip = inr (Investor.name inv) /\
        item row 1 cell_int = inr (Investor.buy inv) /\
        item row 2 cell_int = inr (Investor.sell inv) /\
        item row 3 cell_int = inr (Investor.diff inv).
Proof.
  intros data date_str r H. unfold parse_chip_summary in H.
  destruct (py_iter (dict_get data (py "data") (JArr []))) as [e|rows] eqn:Hit;
    cbn [bind] in H; [discriminate|].
  destruct (summary_rows rows ([], 0)) as [e|st] eqn:Hrows; cbn [bind] in H;
    [discriminate|].
  injection H as <-. cbn [Summary.date Summary.title Summary.investors].
  split; [reflexivity|]. split; [reflexivity|].
  intros inv Hin.
  destruct (summary_rows_adds rows ([], 0) st Hrows inv Hin)
    as [[]|(row & n & Hr & Hrest)].
  exists rows, row, n. split; [reflexivity|]. split; [exact Hr | exact Hrest].
Qed.

Lemma X7_summary_fields_from_cells_witness :
  Summary.date summary_result = sample_date /\
  Summary.title summary_result = dict_get summary_doc (py "title") default_title /\
  forall inv,
    In inv (Summary.investors summary_result) ->
    exists rows row n,
      py_iter (dict_get summary_doc (py "data") (JArr [])) = inr rows /\
      In row rows /\
      py_len row = inr n /\ 4 <= n /\
      item row 0 py_strip = inr (Investor.name inv) /\
      item row 1 cell_int = inr (Investor.buy inv) /\
      item row 2 cell_int = inr (Investor.sell inv) /\
      item row 3 cell_int = inr (Investor.diff inv).
Proof.
  apply (X7_summary_fields_from_cells summary_doc sample_date summary_result).
  vm_compute. reflexivity.
Defined.

(** ** More on the stock parser *)

Lemma parse_stock_row_cells (row : json) (cells : list json) :
  cells_of row = Some cells -> parse_stock_row row = parse_stock_row (JArr cells).
Proof.
  intro H. unfold parse_stock_row, stock_of_row.
  rewrite (py_len_cells row cells H), !(item_cells row cells _ _ H).
  reflexivity.
Qed.

(** One iteration on any row: safe rows go through, the others raise
    [TypeError] or [KeyError]. *)
Lemma parse_stock_row_any (row : json) :
  (stock_row_safe row = true /\ exists o, parse_stock_row row = inr o) \/
  (stock_row_safe row = false /\
   exists e, parse_stock_row row = inl e /\ (e = TypeError \/ e = KeyError)).
Proof.
  destruct row as [| b | n | q | s | cells | o];
    try (right; split; [reflexivity|]; exists TypeError; split; [reflexivity|auto]).
  - left. split; [reflexivity|].
    rewrite (parse_stock_row_cells (JStr s) _ eq_refl).
    apply parse_stock_row_arr.
  - left. split; [reflexivity | apply parse_stock_row_arr].
  - unfold parse_stock_row, stock_row_safe. cbn [py_len bind ret].
    destruct (17 <=? Z.of_nat (List.length o)) eqn:Hlen.
    + apply Z.leb_le in Hlen. right.
      split; [apply Nat.ltb_ge; lia|].
      exists KeyError. split; [reflexivity|auto].
    + apply Z.leb_gt in Hlen. left.
      split; [apply Nat.ltb_lt; lia | eauto].
Qed.

Lemma parse_stock_rows_safe (rows : list json) :
  forall stocks,
    (forallb stock_row_safe rows = true /\
     exists stocks', parse_stock_rows rows stocks = inr stocks') \/
    (forallb stock_row_safe rows = false /\
     exists e, parse_stock_rows rows stocks = inl e /\
               (e = TypeError \/ e = KeyError)).
Proof.
  induction rows as [|row rows IH]; intro stocks; simpl.
  - left. split; [reflexivity | eauto].
  - destruct (parse_stock_row_any row)
      as [(Hs & o & H1)|(Hs & e & H1 & He)]; rewrite Hs, H1; simpl.
    + apply IH.
    + right. split; [reflexivity | eauto].
Qed.

(** X8.  [parse_stock_chip_data] returns a result exactly when the value
    under ["data"] (an empty list when the key is missing) can be iterated
    and each row is a string, a list, or a dict of fewer than 17 keys.  On
    every other document it raises [TypeError] or [KeyError]: no
    [ValueError], [IndexError] or [AttributeError] leaves the parser. *)
Theorem X8_stock_parser_domain :
  forall (data : dict) (date_str : pystr),
    ((exists res, parse_stock_chip_data data date_str = inr res) <->
     (exists rows,
         py_iter (dict_get data (py "data") (JArr [])) = inr rows /\
         forallb stock_row_safe rows = true)) /\
    (forall e,
        parse_stock_chip_data data date_str = inl e ->
        e = TypeError \/ e = KeyError).
Proof.
  intros data date_str. unfold parse_stock_chip_data.
  destruct (py_iter (dict_get data (py "data") (JArr []))) as [e0|rows] eqn:Hit;
    cbn [bind].
  - assert (He0 : e0 = TypeError) by exact (py_iter_raises _ _ Hit).
    split.
    + split; [intros [r H]; discriminate | intros (rows & H & _); discriminate].
    + intros e [= <-]. auto.
  - destruct (parse_stock_rows_safe rows [])
      as [(Hs & st & H)|(Hs & e1 & H & He1)]; rewrite H; cbn [bind ret].
    + split.
      * split; [intros _; exists rows; auto | eauto].
      * intros e H'. discriminate.
    + split.
      * split; [intros [r H']; discriminate|].
        intros (rows' & [= <-] & Hs'). congruence.
      * intros e [= <-]. exact He1.
Qed.

(** *** The top lists hold the extremes *)

Section Extremes.
Variable A : Type.
Variable key : A -> Z.

Lemma insert_by_perm (x : A) (l : list A) :
  Permutation (insert_by key x l) (x :: l).
Proof.
  induction l as [|y l IH]; simpl; [reflexivity|].
  destruct (key x <=? key y); [reflexivity|].
  rewrite IH. apply perm_swap.
Qed.

Lemma sort_by_perm (l : list A) : Permutation (sort_by key l) l.
Proof.
  induction l as [|x l IH]; simpl; [reflexivity|].
  rewrite insert_by_perm, IH. reflexivity.
Qed.

Lemma sorted_perm (reverse : bool) (l : list A) :
  Permutation (sorted key reverse l) l.
Proof.
  unfold sorted. destruct reverse; [|apply sort_by_perm].
  rewrite <- Permutation_rev, sort_by_perm, <- Permutation_rev. reflexivity.
Qed.

Lemma StronglySorted_app_cross (R : A -> A -> Prop) (l1 l2 : list A) :
  StronglySorted R (l1 ++ l2) ->
  forall x y, In x l1 -> In y l2 -> R x y.
Proof.
  induction l1 as [|a l1 IH]; simpl; intros Hs x y Hx Hy; [destruct Hx|].
  inversion Hs as [|? ? Hs' Ha]; subst.
  destruct Hx as [<-|Hx].
  - rewrite Forall_forall in Ha. apply Ha. apply in_or_app. right. exact Hy.
  - exact (IH Hs' x y Hx Hy).
Qed.
End Extremes.

Lemma top10_extremes (key : Stock.t -> Z) (reverse : bool)
  (stocks : list Stock.t) :
  extremes key (if reverse then Z.ge else Z.le) stocks
    (firstn 10 (sorted key reverse stocks)).
Proof.
  exists (skipn 10 (sorted key reverse stocks)). rewrite firstn_skipn.
  split; [symmetry; apply sorted_perm|]. split.
  - apply StronglySorted_app_cross. rewrite firstn_skipn.
    destruct reverse; [apply sorted_descending | apply sorted_ascending].
  - rewrite length_firstn.
    rewrite (Permutation_length (sorted_perm _ key reverse stocks)).
    reflexivity.
Qed.

(** X9.  In a result of [parse_stock_chip_data] each top list is [stocks]
    cut down to its extremes: [stocks] is a rearrangement of the top list
    and the records left out, no record left out has a larger
    [foreign_diff] (for [top_foreign_buy]; smaller for [top_foreign_sell];
    likewise with [trust_diff]) than a record of the list, and the list
    has ten records, or all of them when [stocks] has fewer. *)
Theorem X9_top_lists_hold_extremes :
  forall (data : dict) (date_str : pystr) (res : StockList.t),
    parse_stock_chip_data data date_str = inr res ->
    extremes Stock.foreign_diff Z.ge
      (StockList.stocks res) (StockList.top_foreign_buy res) /\
    extremes Stock.foreign_diff Z.le
      (StockList.stocks res) (StockList.top_foreign_sell res) /\
    extremes Stock.trust_diff Z.ge
      (StockList.stocks res) (StockList.top_trust_buy res) /\
    extremes Stock.trust_diff Z.le
      (StockList.stocks res) (StockList.top_trust_sell res).
Proof.
  intros data date_str res Hparse.
  destruct (parse_stock_chip_data_stocks data date_str res Hparse)
    as (rows & _ & _ & Hres).
  rewrite Hres. cbn [StockList.stocks StockList.top_foreign_buy
                     StockList.top_foreign_sell StockList.top_trust_buy
                     StockList.top_trust_sell].
  split; [apply (top10_extremes Stock.foreign_diff true)|].
  split; [apply (top10_extremes Stock.foreign_diff false)|].
  split; [apply (top10_extremes Stock.trust_diff true)|].
  apply (top10_extremes Stock.trust_diff false).
Qed.

Lemma X9_top_lists_hold_extremes_witness :
  extremes Stock.foreign_diff Z.ge
    (StockList.stocks stock_list) (StockList.top_foreign_buy stock_list) /\
  extremes Stock.foreign_diff Z.le
    (StockList.stocks stock_list) (StockList.top_foreign_sell stock_list) /\
  extremes Stock.trust_diff Z.ge
    (StockList.stocks stock_list) (StockList.top_trust_buy stock_list) /\
  extremes Stock.trust_diff Z.le
    (StockList.stocks stock_list) (StockList.top_trust_sell stock_list).
Proof.
  apply (X9_top_lists_hold_extremes stock_doc sample_date stock_list).
  vm_compute. reflexivity.
Defined.

(** *** Trimmed codes and names *)

Section Strip.
Variable sp : N -> bool.

Lemma lstrip_head (s : pystr) :
  lstrip sp s = [] \/ exists c r, lstrip sp s = c :: r /\ sp c = false.
Proof.
  induction s as [|c s IH]; simpl; [auto|].
  destruct (sp c) eqn:Hc; [exact IH|]. right. eauto.
Qed.

Lemma lstrip_fixed (c : N) (r : pystr) :
  sp c = false -> lstrip sp (c :: r) = c :: r.
Proof. intro H. simpl. rewrite H. reflexivity. Qed.

Lemma lstrip_idem (s : pystr) : lstrip sp (lstrip sp s) = lstrip sp s.
Proof.
  destruct (lstrip_head s) as [->|(c & r & -> & Hc)]; [reflexivity|].
  apply lstrip_fixed. exact Hc.
Qed.

Lemma lstrip_snoc (l : pystr) (c : N) :
  sp c = false -> lstrip sp (l ++ [c]) = lstrip sp l ++ [c].
Proof.
  intro Hc. induction l as [|x l IH]; simpl; [rewrite Hc; reflexivity|].
  destruct (sp x); [exact IH | reflexivity].
Qed.

(** Stripping leaves nothing to strip. *)
Lemma strip_with_idem (s : pystr) :
  strip_with sp (strip_with sp s) = strip_with sp s.
Proof.
  unfold strip_with.
  destruct (lstrip_head s) as [->|(c & r & -> & Hc)]; [reflexivity|].
  assert (Ht : lstrip sp (rev (c :: r)) = lstrip sp (rev r) ++ [c])
    by (simpl rev; apply lstrip_snoc; exact Hc).
  rewrite Ht, rev_app_distr. simpl app.
  rewrite (lstrip_fixed c _ Hc).
  change (rev (c :: rev (lstrip sp (rev r))))
    with (rev (rev (lstrip sp (rev r))) ++ [c]).
  rewrite rev_involutive, (lstrip_snoc _ c Hc), lstrip_idem.
  rewrite rev_app_distr. reflexivity.
Qed.
End Strip.

Lemma item_strip_inr (row : json) (i : nat) (v : pystr) :
  item row i py_strip = inr v -> exists s, v = strip s.
Proof.
  unfold item. destruct (py_getitem row i) as [e|c]; cbn [bind];
    [discriminate|].
  destruct c; simpl; try discriminate. intros [= <-]. eauto.
Qed.

(** X10.  The code and the name of every record of a result of
    [parse_stock_chip_data] are trimmed: trimming them again changes
    nothing.  So a lookup with a query that has white space at either end
    finds nothing, whatever the table holds. *)
Theorem X10_codes_are_trimmed :
  forall (data : dict) (date_str : pystr) (res : StockList.t),
    parse_stock_chip_data data date_str = inr res ->
    (forall s, In s (StockList.stocks res) ->
               strip (Stock.code s) = Stock.code s /\
               strip (Stock.name s) = Stock.name s) /\
    (forall q, strip q <> q -> get_stock_detail res q = None).
Proof.
  intros data date_str res Hparse.
  assert (Htrim : forall s, In s (StockList.stocks res) ->
                            strip (Stock.code s) = Stock.code s /\
                            strip (Stock.name s) = Stock.name s).
  { intros s Hin.
    destruct (parse_stock_chip_data_stocks data date_str res Hparse)
      as (rows & _ & Hstocks & _).
    rewrite Hstocks in Hin. apply in_flat_map in Hin.
    destruct Hin as (row & _ & Hs).
    destruct (records_of_row_In row s Hs) as (n & _ & _ & Hrec).
    destruct (stock_of_row_inr row n s Hrec) as (H0 & H1 & _).
    destruct (item_strip_inr _ _ _ H0) as [c ->].
    destruct (item_strip_inr _ _ _ H1) as [c' ->].
    split; apply strip_with_idem. }
  split; [exact Htrim|].
  intros q Hq. unfold get_stock_detail. apply find_code_none.
  intros s Hin Hcode. apply Hq. rewrite <- Hcode.
  apply (Htrim s Hin).
Qed.

Lemma X10_codes_are_trimmed_witness :
  (forall s, In s (StockList.stocks stock_list) ->
             strip (Stock.code s) = Stock.code s /\
             strip (Stock.name s) = Stock.name s) /\
  (forall q, strip q <> q -> get_stock_detail stock_list q = None).
Proof.
  apply (X10_codes_are_trimmed stock_doc sample_date stock_list).
  vm_compute. reflexivity.
Defined.

(** *** Optional cells *)

Lemma optional_int_falsy (row : json) (cells : list json) (i : nat)
  (c : json) (v : Z) :
  cells_of row = Some cells ->
  nth_error cells i = Some c ->
  truthy c = false ->
  item row i optional_int = inr v ->
  v = 0.
Proof.
  intros Hcells Hnth Hf H.
  rewrite (item_cells row cells _ _ Hcells), (item_arr _ _ _ _ _ Hnth) in H.
  unfold optional_int in H. rewrite Hf in H. injection H as <-. reflexivity.
Qed.

(** X11.  An empty optional cell does not cost the row: when a row of
    cells yields a record, each of [foreign_buy], [foreign_sell],
    [trust_buy] and [trust_sell] whose cell (2, 3, 8, 9) is empty or
    otherwise false ([""], [null], [0], [false], an empty list) is 0. *)
Theorem X11_empty_optional_cells_are_zero :
  forall (cells : list json) (s : Stock.t),
    parse_stock_row (JArr cells) = inr (Some s) ->
    (forall c, nth_error cells 2 = Some c -> truthy c = false ->
               Stock.foreign_buy s = 0) /\
    (forall c, nth_error cells 3 = Some c -> truthy c = false ->
               Stock.foreign_sell s = 0) /\
    (forall c, nth_error cells 8 = Some c -> truthy c = false ->
               Stock.trust_buy s = 0) /\
    (forall c, nth_error cells 9 = Some c -> truthy c = false ->
               Stock.trust_sell s = 0).
Proof.
  intros cells s Hrow.
  assert (Hin : In s (records_of_row (JArr cells)))
    by (unfold records_of_row; rewrite Hrow; left; reflexivity).
  destruct (records_of_row_In _ s Hin) as (n & _ & _ & Hrec).
  destruct (stock_of_row_inr _ n s Hrec)
    as (_ & _ & _ & _ & _ & _ & H2 & H3 & H8 & H9).
  repeat split; intros c Hnth Hf;
    eapply (optional_int_falsy (JArr cells) cells); eauto; reflexivity.
Qed.

Lemma X11_empty_optional_cells_are_zero_witness :
  (forall c, nth_error tsmc_row 2 = Some c -> truthy c = false ->
             Stock.foreign_buy tsmc = 0) /\
  (forall c, nth_error tsmc_row 3 = Some c -> truthy c = false ->
             Stock.foreign_sell tsmc = 0) /\
  (forall c, nth_error tsmc_row 8 = Some c -> truthy c = false ->
             Stock.trust_buy tsmc = 0) /\
  (forall c, nth_error tsmc_row 9 = Some c -> truthy c = false ->
             Stock.trust_sell tsmc = 0).
Proof.
  apply (X11_empty_optional_cells_are_zero tsmc_row tsmc).
  vm_compute. reflexivity.
Defined.

(** *** Tables without an acceptable row *)

Lemma summary_rows_short (rows : list json) :
  (forall row, In row rows -> exists n, py_len row = inr n /\ n < 4) ->
  forall st, summary_rows rows st = inr st.
Proof.
  induction rows as [|row rows IH]; intros Hshort st; simpl; [reflexivity|].
  destruct (Hshort row (or_introl eq_refl)) as (n & Hlen & Hn).
  unfold summary_row. rewrite Hlen. cbn [bind].
  replace (4 <=? n) with false by (symmetry; apply Z.leb_gt; exact Hn).
  cbn [bind ret]. apply IH. intros r Hr. apply Hshort. right. exact Hr.
Qed.

Lemma parse_stock_rows_short (rows : list json) :
  (forall row, In row rows -> exists n, py_len row = inr n /\ n < 17) ->
  forall stocks, parse_stock_rows rows stocks = inr stocks.
Proof.
  induction rows as [|row rows IH]; intros Hshort stocks; simpl; [reflexivity|].
  destruct (Hshort row (or_introl eq_refl)) as (n & Hlen & Hn).
  unfold parse_stock_row. rewrite Hlen. cbn [bind].
  replace (17 <=? n) with false by (symmetry; apply Z.leb_gt; exact Hn).
  cbn [bind ret]. apply IH. intros r Hr. apply Hshort. right. exact Hr.
Qed.

(** X12.  A document without a ["data"] key, with an empty table, or with
    rows that are all too short gives an empty result and no error: the
    summary has no investor and a [total_diff] of 0 (rows under four
    cells), the stock list has no stock and four empty top lists (rows
    under 17 cells). *)
Theorem X12_short_rows_give_empty_results :
  forall (data : dict) (date_str : pystr) (rows : list json),
    py_iter (dict_get data (py "data") (JArr [])) = inr rows ->
    ((forall row, In row rows -> exists n, py_len row = inr n /\ n < 4) ->
     parse_chip_summary data date_str =
       inr (Summary.mk date_str
              (dict_get data (py "title") default_title) [] 0)) /\
    ((forall row, In row rows -> exists n, py_len row = inr n /\ n < 17) ->
     parse_stock_chip_data data date_str =
       inr (StockList.mk date_str [] [] [] [] [])).
Proof.
  intros data date_str rows Hit. split; intro Hshort.
  - unfold parse_chip_summary. rewrite Hit. cbn [bind].
    rewrite (summary_rows_short rows Hshort). reflexivity.
  - unfold parse_stock_chip_data. rewrite Hit. cbn [bind].
    rewrite (parse_stock_rows_short rows Hshort). reflexivity.
Qed.

Lemma X12_short_rows_give_empty_results_witness :
  ((forall row, In row [] -> exists n, py_len row = inr n /\ n < 4) ->
   parse_chip_summary doc_without_data sample_date =
     inr (Summary.mk sample_date
            (dict_get doc_without_data (py "title") default_title) [] 0)) /\
  ((forall row, In row [] -> exists n, py_len row = inr n /\ n < 17) ->
   parse_stock_chip_data doc_without_data sample_date =
     inr (StockList.mk sample_date [] [] [] [] [])).
Proof.
  apply (X12_short_rows_give_empty_results doc_without_data sample_date []).
  vm_compute. reflexivity.
Defined.

(** ** The router *)

Lemma str_contains_app_r (sub a s : pystr) :
  str_contains sub s = true -> str_contains sub (a ++ s) = true.
Proof.
  intro H. induction a as [|c a IH]; simpl; [exact H|].
  rewrite IH. apply orb_true_r.
Qed.

(** A first attempt that raises ends the call there. *)
Lemma fetch_first_propagated (net : nat -> response) (url : pystr)
  (max_retries : Z) (b m : Q) (e : TWSEAPIError) :
  1 <= max_retries ->
  attempt url (net 0%nat) = Propagated e ->
  _fetch_json net url max_retries b m = ([Get 0%nat], inl e).
Proof.
  intros Hn Ha. unfold _fetch_json.
  destruct (Z.to_nat max_retries) as [|todo] eqn:Htodo; [lia|].
  simpl. rewrite Ha. reflexivity.
Qed.

Lemma no_data_text_not_ok (s : pystr) :
  str_contains (py "沒有符合條件的資料") s = true ->
  eq_str (JStr s) (py "OK") = false.
Proof.
  intro H. simpl. destruct (str_eqb s (py "OK")) eqn:Heq; [|reflexivity].
  apply str_eqb_eq in Heq. subst s. vm_compute in H. discriminate H.
Qed.

Section RouterFacts.
Variable web : pystr -> nat -> response.
Variable today : pystr.
Variable str_int : Z -> pystr.
Variable str_json : json -> pystr.
Variable str_exn : exn -> pystr.

(** The text of a string is the string. *)
Hypothesis str_json_str : forall s, str_json (JStr s) = s.

Lemma no_data_of_stat (s : pystr) :
  str_contains (py "沒有符合條件的資料") s = true ->
  no_data str_int str_json str_exn
    (mkError (API_returned_error_status (JStr s)) None) = true.
Proof.
  intro H. unfold no_data. cbn [error_message message_text].
  rewrite str_json_str, (str_contains_app_r _ _ _ H). reflexivity.
Qed.
End RouterFacts.

(** X13.  A day without data: when the site answers the first request
    with an object whose ["stat"] is a string containing
    "沒有符合條件的資料", the summary route and the stock-list route
    answer 404 "No data available" after that single request, while the
    stock-detail route answers the same upstream reply with 500 and the
    message of the error. *)
Theorem X13_no_data_day :
  forall (web : pystr -> nat -> response) (today : pystr)
         (str_int : Z -> pystr) (str_json : json -> pystr)
         (str_exn : exn -> pystr)
         (date : option pystr) (code : pystr) (o : dict) (s : pystr),
    (forall t, str_json (JStr t) = t) ->
    dict_lookup o (py "stat") = Some (JStr s) ->
    str_contains (py "沒有符合條件的資料") s = true ->
    let d := match date with Some d => d | None => today end in
    (web (summary_url d) 0%nat = Json (JObj o) ->
     get_chip_summary web today str_int str_json str_exn date =
       ([Get 0%nat], inl (HTTPException.mk 404 (No_data_available d)))) /\
    (web (stock_url d) 0%nat = Json (JObj o) ->
     get_stock_chip_list web today str_int str_json str_exn date =
       ([Get 0%nat], inl (HTTPException.mk 404 (No_data_available d))) /\
     get_stock_chip_detail web today code date =
       ([Get 0%nat],
        inl (HTTPException.mk 500
               (Message_text (API_returned_error_status (JStr s)))))).
Proof.
  intros web today str_int str_json str_exn date code o s Hstr Hl Hs d.
  pose proof (no_data_text_not_ok s Hs) as Hne.
  pose proof (no_data_of_stat str_int str_json str_exn Hstr s Hs) as Hnd.
  split; intro Hweb; [|split].
  - unfold get_chip_summary, fetch_chip_summary. fold d.
    rewrite (fetch_first_propagated (web (summary_url d)) (summary_url d)
               DEFAULT_MAX_RETRIES _ _
               (mkError (API_returned_error_status (JStr s)) None)).
    + cbn [fst snd]. rewrite Hnd. reflexivity.
    + unfold DEFAULT_MAX_RETRIES. lia.
    + rewrite Hweb. exact (attempt_stat_not_ok _ o (JStr s) Hl Hne).
  - unfold get_stock_chip_list, fetch_stock_chip_data. fold d.
    rewrite (fetch_first_propagated (web (stock_url d)) (stock_url d)
               DEFAULT_MAX_RETRIES _ _
               (mkError (API_returned_error_status (JStr s)) None)).
    + cbn [fst snd]. rewrite Hnd. reflexivity.
    + unfold DEFAULT_MAX_RETRIES. lia.
    + rewrite Hweb. exact (attempt_stat_not_ok _ o (JStr s) Hl Hne).
  - unfold get_stock_chip_detail, fetch_stock_chip_data. fold d.
    rewrite (fetch_first_propagated (web (stock_url d)) (stock_url d)
               DEFAULT_MAX_RETRIES _ _
               (mkError (API_returned_error_status (JStr s)) None)).
    + reflexivity.
    + unfold DEFAULT_MAX_RETRIES. lia.
    + rewrite Hweb. exact (attempt_stat_not_ok _ o (JStr s) Hl Hne).
Qed.

Lemma X13_no_data_day_witness :
  (web_no_data (summary_url sample_date) 0%nat = Json no_data_body ->
   get_chip_summary web_no_data sample_date
     sample_str_int sample_str_json sample_str_exn None =
     ([Get 0%nat], inl (HTTPException.mk 404 (No_data_available sample_date)))) /\
  (web_no_data (stock_url sample_date) 0%nat = Json no_data_body ->
   get_stock_chip_list web_no_data sample_date
     sample_str_int sample_str_json sample_str_exn None =
     ([Get 0%nat], inl (HTTPException.mk 404 (No_data_available sample_date))) /\
   get_stock_chip_detail web_no_data sample_date (py "2330") None =
     ([Get 0%nat],
      inl (HTTPException.mk 500
             (Message_text
                (API_returned_error_status
                   (JStr (py "很抱歉，沒有符合條件的資料!"))))))).
Proof.
  apply (X13_no_data_day web_no_data sample_date
           sample_str_int sample_str_json sample_str_exn None (py "2330")
           [(py "stat", JStr (py "很抱歉，沒有符合條件的資料!"))]
           (py "很抱歉，沒有符合條件的資料!")).
  - intro t. reflexivity.
  - vm_compute. reflexivity.
  - vm_compute. reflexivity.
Defined.

(** After [k] recorded failures, an attempt that does not end in a
    recorded error ends the call with its outcome. *)
Lemma fetch_ends_at (net : nat -> response) (url : pystr)
  (max_retries : Z) (b m : Q) (k : nat) :
  Z.of_nat k < max_retries ->
  (forall i, (i < k)%nat -> exists e, attempt url (net i) = Recorded e) ->
  (Z.of_nat k = max_retries - 1 \/
   forall e, attempt url (net k) <> Recorded e) ->
  _fetch_json net url max_retries b m =
    (failed_prefix b m 0 k ++ [Get k], outcome (attempt url (net k))).
Proof.
  intros Hk Hrec Hstop.
  destruct (retry_loop_recorded net url max_retries b m k
              (Z.to_nat max_retries - k) 0 None) as [last' Hrun].
  - intros j Hj. apply Hrec. lia.
  - lia.
  - unfold _fetch_json.
    replace (Z.to_nat max_retries) with (k + (Z.to_nat max_retries - k))%nat
      at 1 by lia.
    rewrite Hrun. simpl.
    destruct (Z.to_nat max_retries - k)%nat as [|todo] eqn:Htodo; [lia|].
    simpl. destruct (attempt url (net k)) as [d|e|e] eqn:Ha; try reflexivity.
    destruct Hstop as [Hlast|Hno]; [|destruct (Hno e eq_refl)].
    replace (Z.of_nat k <? max_retries - 1) with false
      by (symmetry; apply Z.ltb_ge; lia).
    assert (todo = 0%nat) as -> by lia. reflexivity.
Qed.

(** X14.  When the site's answer to the third request is the HTTP status
    404, the two before it having failed with recorded errors, the summary
    route and the stock-list route answer 404 "No data available" (the
    status code of the error decides, whatever its text), after three
    requests and sleeps of 1 and 2 seconds; the stock-detail route answers
    500. *)
Theorem X14_upstream_404 :
  forall (web : pystr -> nat -> response) (today : pystr)
         (str_int : Z -> pystr) (str_json : json -> pystr)
         (str_exn : exn -> pystr)
         (date : option pystr) (code : pystr),
    let d := match date with Some d => d | None => today end in
    let trace := failed_prefix 1%Q 10%Q 0 2 ++ [Get 2%nat] in
    ((forall i, (i < 2)%nat ->
        exists e, attempt (summary_url d) (web (summary_url d) i) = Recorded e) ->
     web (summary_url d) 2%nat = HTTPStatusError 404 ->
     get_chip_summary web today str_int str_json str_exn date =
       (trace, inl (HTTPException.mk 404 (No_data_available d)))) /\
    ((forall i, (i < 2)%nat ->
        exists e, attempt (stock_url d) (web (stock_url d) i) = Recorded e) ->
     web (stock_url d) 2%nat = HTTPStatusError 404 ->
     get_stock_chip_list web today str_int str_json str_exn date =
       (trace, inl (HTTPException.mk 404 (No_data_available d))) /\
     get_stock_chip_detail web today code date =
       (trace, inl (HTTPException.mk 500 (Message_text (HTTP_error 404))))).
Proof.
  intros web today str_int str_json str_exn date code d trace.
  assert (Hfetch : forall url,
             (forall i, (i < 2)%nat ->
                exists e, attempt url (web url i) = Recorded e) ->
             web url 2%nat = HTTPStatusError 404 ->
             _fetch_json (web url) url DEFAULT_MAX_RETRIES
               DEFAULT_BASE_DELAY DEFAULT_MAX_DELAY =
               (trace, inl (mkError (HTTP_error 404) (Some 404)))).
  { intros url Hrec Hlast.
    rewrite (fetch_ends_at (web url) url DEFAULT_MAX_RETRIES _ _ 2);
      [rewrite Hlast; reflexivity | unfold DEFAULT_MAX_RETRIES; lia
      | exact Hrec | left; reflexivity]. }
  split; intros Hrec Hlast; [|split].
  - unfold get_chip_summary, fetch_chip_summary. fold d.
    rewrite (Hfetch _ Hrec Hlast). cbn [fst snd]. unfold no_data.
    cbn [status_code]. rewrite orb_true_r. reflexivity.
  - unfold get_stock_chip_list, fetch_stock_chip_data. fold d.
    rewrite (Hfetch _ Hrec Hlast). cbn [fst snd]. unfold no_data.
    cbn [status_code]. rewrite orb_true_r. reflexivity.
  - unfold get_stock_chip_detail, fetch_stock_chip_data. fold d.
    rewrite (Hfetch _ Hrec Hlast). reflexivity.
Qed.

(** X15.  The stock-detail route: a record it returns carries the date of
    the call and the code asked for, and is the record the lookup finds in
    the parse of the fetched document.  It answers 404 only with "Stock
    not found", when fetch and parse went through and no record of the
    parsed stocks has the code; every other failure, of the fetch or of
    the parse, is answered 500. *)
Theorem X15_stock_detail_route :
  forall (web : pystr -> nat -> response) (today : pystr)
         (code : pystr) (date : option pystr),
    let d := match date with Some d => d | None => today end in
    let out := snd (get_stock_chip_detail web today code date) in
    (forall det,
        out = inr det ->
        StockDetail.date det = d /\
        Stock.code (StockDetail.stock det) = code /\
        exists o res,
          snd (fetch_stock_chip_data web today (Some d)) = inr (JObj o) /\
          parse_stock_chip_data o d = inr res /\
          get_stock_detail res code = Some (StockDetail.stock det)) /\
    (forall exc,
        out = inl exc ->
        (exc = HTTPException.mk 404 (Stock_not_found code d) /\
         exists o res,
           snd (fetch_stock_chip_data web today (Some d)) = inr (JObj o) /\
           parse_stock_chip_data o d = inr res /\
           forall s, In s (StockList.stocks res) -> Stock.code s <> code) \/
        HTTPException.status_code exc = 500).
Proof.
  intros web today code date d out. unfold out, get_stock_chip_detail.
  fold d. cbn [snd].
  destruct (snd (fetch_stock_chip_data web today (Some d))) as [e|raw].
  - split; [intros det H; discriminate|].
    intros exc [= <-]. right. reflexivity.
  - destruct raw as [| b | n | q | s | l | o];
      try (split; [intros det H; discriminate
                  | intros exc [= <-]; right; reflexivity]).
    cbn [as_dict bind ret].
    destruct (parse_stock_chip_data o d) as [e|res] eqn:Hparse.
    + split; [intros det H; discriminate|].
      intros exc [= <-]. right. reflexivity.
    + destruct (get_stock_detail res code) as [s|] eqn:Hfind.
      * split; [|intros exc H; discriminate].
        intros det [= <-]. cbn [StockDetail.date StockDetail.stock].
        split; [reflexivity|]. split.
        -- unfold get_stock_detail in Hfind. apply find_code_some in Hfind.
           destruct Hfind as (l1 & l2 & _ & Hc & _). exact Hc.
        -- exists o, res. auto.
      * split; [intros det H; discriminate|].
        intros exc [= <-]. left. split; [reflexivity|].
        exists o, res. split; [reflexivity|]. split; [exact Hparse|].
        unfold get_stock_detail in Hfind. apply find_code_none. exact Hfind.
Qed.

(** X16.  Fetch, parse and lookup in a row: when the site answers request
    [k] (at most the third, the earlier ones having failed with recorded
    errors) with an object that passes the status check and that the stock
    parser accepts, the stock-list route returns the parsed result after
    [k + 1] requests and [k] sleeps, and the stock-detail route returns
    the first record with the code asked for, with the date, or 404 when
    there is none. *)
Theorem X16_stock_routes_on_success :
  forall (web : pystr -> nat -> response) (today : pystr)
         (str_int : Z -> pystr) (str_json : json -> pystr)
         (str_exn : exn -> pystr)
         (date : option pystr) (code : pystr) (k : nat) (o : dict)
         (res : StockList.t),
    let d := match date with Some d => d | None => today end in
    (k < 3)%nat ->
    (forall i, (i < k)%nat ->
       exists e, attempt (stock_url d) (web (stock_url d) i) = Recorded e) ->
    web (stock_url d) k = Json (JObj o) ->
    validate (JObj o) = inr None ->
    parse_stock_chip_data o d = inr res ->
    get_stock_chip_list web today str_int str_json str_exn date =
      (failed_prefix 1%Q 10%Q 0 k ++ [Get k], inr res) /\
    get_stock_chip_detail web today code date =
      (failed_prefix 1%Q 10%Q 0 k ++ [Get k],
       match find_code (StockList.stocks res) code with
       | Some s => inr (StockDetail.mk s d)
       | None => inl (HTTPException.mk 404 (Stock_not_found code d))
       end).
Proof.
  intros web today str_int str_json str_exn date code k o res d
         Hk Hrec Hweb Hvalid Hparse.
  assert (Ha : attempt (stock_url d) (web (stock_url d) k) = Returned (JObj o))
    by (rewrite Hweb; unfold attempt; rewrite Hvalid; reflexivity).
  assert (Hfetch : _fetch_json (web (stock_url d)) (stock_url d)
                     DEFAULT_MAX_RETRIES DEFAULT_BASE_DELAY DEFAULT_MAX_DELAY =
                   (failed_prefix 1%Q 10%Q 0 k ++ [Get k], inr (JObj o))).
  { rewrite (fetch_ends_at _ _ DEFAULT_MAX_RETRIES _ _ k);
      [rewrite Ha; reflexivity | unfold DEFAULT_MAX_RETRIES; lia
      | exact Hrec | right; intros e He; congruence]. }
  split.
  - unfold get_stock_chip_list, fetch_stock_chip_data. fold d.
    rewrite Hfetch. cbn [fst snd as_dict bind ret]. rewrite Hparse.
    reflexivity.
  - unfold get_stock_chip_detail, fetch_stock_chip_data. fold d.
    rewrite Hfetch. cbn [fst snd as_dict bind ret]. rewrite Hparse.
    unfold get_stock_detail.
    destruct (find_code (StockList.stocks res) code); reflexivity.
Qed.

Lemma X16_stock_routes_on_success_witness :
  get_stock_chip_list web_stocks sample_date
    sample_str_int sample_str_json sample_str_exn None =
    (failed_prefix 1%Q 10%Q 0 0 ++ [Get 0%nat], inr stock_list) /\
  get_stock_chip_detail web_stocks sample_date (py "2317") None =
    (failed_prefix 1%Q 10%Q 0 0 ++ [Get 0%nat],
     match find_code (StockList.stocks stock_list) (py "2317") with
     | Some s => inr (StockDetail.mk s sample_date)
     | None =>
         inl (HTTPException.mk 404 (Stock_not_found (py "2317") sample_date))
     end).
Proof.
  apply (X16_stock_routes_on_success web_stocks sample_date
           sample_str_int sample_str_json sample_str_exn None (py "2317")
           0 stock_doc stock_list).
  - lia.
  - intros i Hi. lia.
  - reflexivity.
  - vm_compute. reflexivity.
  - vm_compute. reflexivity.
Defined.

(** ** The backoff schedule *)

Lemma backoff_mono (b m : Q) (i j : nat) :
  (0 <= b)%Q -> (i <= j)%nat ->
  (Qmin (b * inject_Z (2 ^ Z.of_nat i)) m <=
   Qmin (b * inject_Z (2 ^ Z.of_nat j)) m)%Q.
Proof.
  intros Hb Hij. apply Q.min_le_compat_r.
  rewrite (Qmult_comm b), (Qmult_comm b).
  apply Qmult_le_compat_r; [|exact Hb].
  rewrite <- Zle_Qle. apply Z.pow_le_mono_r; lia.
Qed.

Lemma backoff_sorted (b m : Q) (k : nat) :
  (0 <= b)%Q ->
  forall a,
    StronglySorted Qle
      (map (fun i => Qmin (b * inject_Z (2 ^ Z.of_nat i)) m) (seq a k)).
Proof.
  intro Hb. induction k as [|k IH]; intro a; simpl; constructor.
  - apply IH.
  - apply Forall_forall. intros d Hd. apply in_map_iff in Hd.
    destruct Hd as (i & <- & Hi). apply in_seq in Hi.
    apply backoff_mono; [exact Hb | lia].
Qed.

(** X17.  With a base delay that is not negative the sleeps of a call
    never get shorter: each sleep lasts at least as long as every sleep
    before it. *)
Theorem X17_sleeps_never_shorten :
  forall (net : nat -> response) (url : pystr) (max_retries : Z)
         (base_delay max_delay : Q),
    (0 <= base_delay)%Q ->
    StronglySorted Qle
      (sleeps (fst (_fetch_json net url max_retries base_delay max_delay))).
Proof.
  intros net url mr b m Hb.
  destruct (fetch_json_cases net url mr b m) as [[_ Hrun]|(k & Hk & Hrun)];
    rewrite Hrun; cbn [fst].
  - constructor.
  - rewrite sleeps_app, sleeps_failed_prefix. simpl sleeps at 1.
    rewrite app_nil_r. apply backoff_sorted. exact Hb.
Qed.

Lemma X17_sleeps_never_shorten_witness :
  StronglySorted Qle
    (sleeps (fst (_fetch_json net_two_failures sample_url 3 1%Q 10%Q))).
Proof.
  apply (X17_sleeps_never_shorten net_two_failures sample_url 3 1%Q 10%Q).
  discriminate.
Defined.
